(** * fix_csv: normalisation and verification of threat-intelligence CSV files

    A shallow embedding of [fix_csv.py].  The script reads CSV files,
    rewrites two legacy layouts into the canonical 11-column layout, and
    optionally scans each file for TLSH fingerprints close to a reference
    fingerprint.

    The embedding follows the script function by function.  Effects are
    threaded through a small state-and-exception monad over a [world] that
    holds the file store, the lines printed so far, the [open] calls made
    so far and the paths that cannot be opened for writing. *)

From Stdlib Require Import ZArith Ascii String List Lia.
From stdpp Require Import base strings gmap list pretty.

Open Scope string_scope.
Open Scope list_scope.

(** ** Python string methods used by the script

    A Python [str] is embedded as a Rocq [string] holding its UTF-8
    encoding.  The characters the script looks for (comma, semicolon, ['T'],
    ['1'], ['/'], ['.'], the letters of [.csv]) are ASCII, and no byte of a
    multi-byte UTF-8 sequence is ASCII, so working on bytes finds the same
    occurrences.  White space is recognised on the encoded form, one, two
    or three bytes long. *)
Module Str.

(** The ASCII characters for which [str.isspace] holds: TAB, LF, VT, FF,
    CR, the four separators FS/GS/RS/US and the space. *)
Definition isspace (c : ascii) : bool :=
  let n := nat_of_ascii c in
  ((9 <=? n)%nat && (n <=? 13)%nat) || ((28 <=? n)%nat && (n <=? 32)%nat).

(** The white space of two bytes: U+0085 and U+00A0, encoded C2 85 and
    C2 A0. *)
Definition isspace2 (c1 c2 : ascii) : bool :=
  (nat_of_ascii c1 =? 194)%nat
  && ((nat_of_ascii c2 =? 133)%nat || (nat_of_ascii c2 =? 160)%nat).

(** The white space of three bytes: U+1680 (E1 9A 80), U+2000 to U+200A
    (E2 80 80 to E2 80 8A), U+2028, U+2029 and U+202F (E2 80 A8, A9, AF),
    U+205F (E2 81 9F) and U+3000 (E3 80 80).  With the ASCII and two-byte
    ones these are the characters for which [str.isspace] holds. *)
Definition isspace3 (c1 c2 c3 : ascii) : bool :=
  let n1 := nat_of_ascii c1 in
  let n2 := nat_of_ascii c2 in
  let n3 := nat_of_ascii c3 in
  ((n1 =? 225) && (n2 =? 154) && (n3 =? 128))%nat
  || ((n1 =? 226) && (n2 =? 128)
      && (((128 <=? n3) && (n3 <=? 138)) || (n3 =? 168) || (n3 =? 169)
          || (n3 =? 175)))%nat
  || ((n1 =? 226) && (n2 =? 129) && (n3 =? 159))%nat
  || ((n1 =? 227) && (n2 =? 128) && (n3 =? 128))%nat.

(** [s.lstrip()] *)
Fixpoint lstrip (s : string) : string :=
  match s with
  | EmptyString => EmptyString
  | String c1 s1 =>
      if isspace c1 then lstrip s1
      else
        match s1 with
        | String c2 s2 =>
            if isspace2 c1 c2 then lstrip s2
            else
              match s2 with
              | String c3 s3 => if isspace3 c1 c2 c3 then lstrip s3 else s
              | EmptyString => s
              end
        | EmptyString => s
        end
  end.

(** The same from the end, on the bytes in reverse order. *)
Fixpoint lstrip_reversed (s : string) : string :=
  match s with
  | EmptyString => EmptyString
  | String c1 s1 =>
      if isspace c1 then lstrip_reversed s1
      else
        match s1 with
        | String c2 s2 =>
            if isspace2 c2 c1 then lstrip_reversed s2
            else
              match s2 with
              | String c3 s3 =>
                  if isspace3 c3 c2 c1 then lstrip_reversed s3 else s
              | EmptyString => s
              end
        | EmptyString => s
        end
  end.

Definition reverse (s : string) : string :=
  string_of_list_ascii (rev (list_ascii_of_string s)).

(** [s.rstrip()] *)
Definition rstrip (s : string) : string :=
  reverse (lstrip_reversed (reverse s)).

(** [s.strip()] *)
Definition strip (s : string) : string := rstrip (lstrip s).

(** [s.replace(old, new)] for one-character [old] and [new]. *)
Fixpoint replace (old new : ascii) (s : string) : string :=
  match s with
  | EmptyString => EmptyString
  | String c s' =>
      String (if Ascii.eqb c old then new else c) (replace old new s')
  end.

(** [s.startswith(p)] *)
Fixpoint startswith (p s : string) : bool :=
  match p, s with
  | EmptyString, _ => true
  | String _ _, EmptyString => false
  | String a p', String b s' => Ascii.eqb a b && startswith p' s'
  end.

(** [s.endswith(suf)] *)
Fixpoint endswith (suf s : string) : bool :=
  if String.eqb s suf then true
  else match s with
       | EmptyString => false
       | String _ s' => endswith suf s'
       end.

Definition lower_char (c : ascii) : ascii :=
  let n := nat_of_ascii c in
  if (65 <=? n)%nat && (n <=? 90)%nat then ascii_of_nat (n + 32) else c.

(** [s.lower()] on ASCII letters.  The script only asks whether the result
    ends in [.csv], and no character outside ASCII has a lower-case form
    containing one of these four characters. *)
Fixpoint lower (s : string) : string :=
  match s with
  | EmptyString => EmptyString
  | String c s' => String (lower_char c) (lower s')
  end.

(** [c * n] for a string [c] *)
Fixpoint times (c : string) (n : nat) : string :=
  match n with
  | 0 => EmptyString
  | S n' => c +:+ times c n'
  end.

Fixpoint contains (c : ascii) (s : string) : bool :=
  match s with
  | EmptyString => false
  | String a s' => Ascii.eqb a c || contains c s'
  end.

(** The line feed, written [\n] in the script's literals. *)
Definition nl : string := String (ascii_of_nat 10) EmptyString.

Definition hex_digit (n : nat) : ascii :=
  match String.get n "0123456789abcdef" with
  | Some c => c
  | None => "0"%char
  end.

(** One character inside [repr(s)], [quote] being the quote chosen. *)
Definition repr_char (quote c : ascii) : string :=
  let n := nat_of_ascii c in
  if Ascii.eqb c quote || (n =? 92)%nat then String (ascii_of_nat 92) (String c EmptyString)
  else if (n =? 9)%nat then String (ascii_of_nat 92) "t"
  else if (n =? 10)%nat then String (ascii_of_nat 92) "n"
  else if (n =? 13)%nat then String (ascii_of_nat 92) "r"
  else if (n <? 32)%nat || (n =? 127)%nat then
    String (ascii_of_nat 92)
      (String "x" (String (hex_digit (n / 16)) (String (hex_digit (n mod 16)) EmptyString)))
  else String c EmptyString.

Fixpoint repr_chars (quote : ascii) (s : string) : string :=
  match s with
  | EmptyString => EmptyString
  | String c s' => repr_char quote c +:+ repr_chars quote s'
  end.

(** [repr(s)]: between single quotes, or between double quotes when [s]
    has a single quote and no double quote; the quote, the backslash and
    the ASCII control characters are escaped.  Characters outside ASCII are
    left as they are, as [repr] does for the printable ones. *)
Definition repr (s : string) : string :=
  let double := ascii_of_nat 34 in
  let quote :=
    if contains "'" s && negb (contains double s) then double else "'"%char in
  String quote (repr_chars quote s +:+ String quote EmptyString).

End Str.

(** ** [os.path] on POSIX paths *)
Module Path.

(** [os.path.basename(p)]: what follows the last slash. *)
Fixpoint basename (p : string) : string :=
  match p with
  | EmptyString => EmptyString
  | String _ p' => if Str.contains "/" p then basename p' else p
  end.

(** [os.path.join(a, b)] *)
Definition join (a b : string) : string :=
  if Str.startswith "/" b then b
  else if String.eqb a EmptyString || Str.endswith "/" a then a +:+ b
  else a +:+ "/" +:+ b.

End Path.

(** ** Exceptions *)

Inductive exn : Type :=
  | FileNotFoundError (filename : string)
  | PermissionError (filename : string)
  | IsADirectoryError (filename : string)
  | CsvError (msg : string)
  | IndexError (msg : string)
  | TypeError (msg : string)
  | AttributeError (msg : string).

(** [str(e)], as the [f"... {e}"] literals of the script print it.  For the
    [OSError]s the file name is shown as [repr] gives it. *)
Definition exn_str (e : exn) : string :=
  match e with
  | FileNotFoundError f => "[Errno 2] No such file or directory: " +:+ Str.repr f
  | PermissionError f => "[Errno 13] Permission denied: " +:+ Str.repr f
  | IsADirectoryError f => "[Errno 21] Is a directory: " +:+ Str.repr f
  | CsvError m | IndexError m | TypeError m | AttributeError m => m
  end.

(** ** The world: file store, standard output, [open] calls *)

(** A row as [csv.reader] yields it. *)
Abbreviation row := (list string).

(** What is found at a path.  [Table rows] is a file that can be opened for
    reading and that [csv.reader] parses into [rows] (an empty file is
    [Table []]).  [Unreadable e] is a path whose opening for reading raises
    [e]: a directory, a file without read permission.  [Corrupt rows e] is
    a file that can be opened and from which [csv.reader] yields [rows] and
    then raises [e]: a file the [csv] module rejects part-way.  A path
    absent from the store does not exist. *)
Inductive entry : Type :=
  | Table (rows : list row)
  | Unreadable (e : exn)
  | Corrupt (rows : list row) (e : exn).

Inductive io_event : Type :=
  | OpenRead (path : string)
  | OpenWrite (path : string).

(** [files] is the store, [stdout] the lines printed so far, [io_log] the
    calls of [open] made so far, and [read_only] the paths that cannot be
    opened for writing. *)
Record world : Type := WorldRO {
  files : gmap string entry;
  stdout : list string;
  io_log : list io_event;
  read_only : gset string
}.

(** A world in which every path can be opened for writing. *)
Definition World (f : gmap string entry) (o : list string) (l : list io_event)
  : world :=
  WorldRO f o l ∅.

Definition with_files (f : gmap string entry) (w : world) : world :=
  WorldRO f (stdout w) (io_log w) (read_only w).
Definition with_stdout (o : list string) (w : world) : world :=
  WorldRO (files w) o (io_log w) (read_only w).
Definition with_io_log (l : list io_event) (w : world) : world :=
  WorldRO (files w) (stdout w) l (read_only w).

(** ** The monad of the script: state over [world], plus exceptions *)

Inductive result (A : Type) : Type :=
  | Returned (a : A)
  | Raised (e : exn).
Arguments Returned {A} a.
Arguments Raised {A} e.

Definition M (A : Type) : Type := world → result A * world.

#[global] Instance M_ret : MRet M := λ A a w, (Returned a, w).
#[global] Instance M_bind : MBind M := λ A B k m w,
  match m w with
  | (Returned a, w') => k a w'
  | (Raised e, w') => (Raised e, w')
  end.

Definition raise {A : Type} (e : exn) : M A := λ w, (Raised e, w).

(** [try: m except Exception as e: h e] *)
Definition try_except {A : Type} (m : M A) (h : exn → M A) : M A := λ w,
  match m w with
  | (Returned a, w') => (Returned a, w')
  | (Raised e, w') => h e w'
  end.

(** [print(line)].  Standard output is taken to encode every line it is
    given. *)
Definition print (line : string) : M unit := λ w,
  (Returned tt, with_stdout (stdout w ++ [line]) w).

(** [with open(path, 'r', encoding='utf-8', errors='ignore') as infile:]
    and a reader on [infile]: the rows the reader yields when it is
    iterated, and the exception that ends the iteration, if one does.  With
    [errors='ignore'] decoding never raises. *)
Definition open_csv (path : string) : M (list row * option exn) := λ w,
  let w' := with_io_log (io_log w ++ [OpenRead path]) w in
  match files w !! path with
  | None => (Raised (FileNotFoundError path), w')
  | Some (Unreadable e) => (Raised e, w')
  | Some (Table rows) => (Returned (rows, None), w')
  | Some (Corrupt rows e) => (Returned (rows, Some e), w')
  end.

(** Opening the file and reading every row, as [next(reader)] followed by
    [list(reader)] does. *)
Definition open_read_csv (path : string) : M (list row) :=
  '(rows, final) ← open_csv path;
  match final with
  | Some e => raise e
  | None => mret rows
  end.

(** [with open(path, 'w', newline='', encoding='utf-8') as outfile:
    csv.writer(outfile).writerows(rows)].  Opening a path that cannot be
    opened for writing raises [PermissionError] and leaves the file as it
    is.  Otherwise the store keeps the table that reading the written text
    gives back, which is [rows]: the writer quotes every cell holding a
    comma, a quote or a line break.  A failure in the middle of the writing
    is not modelled. *)
Definition write_csv (path : string) (rows : list row) : M unit := λ w,
  let w' := with_io_log (io_log w ++ [OpenWrite path]) w in
  if bool_decide (path ∈ read_only w) then (Raised (PermissionError path), w')
  else (Returned tt, with_files (<[path := Table rows]> (files w)) w').

(** [r[k]] on a list *)
Definition getitem (r : row) (k : nat) : M string :=
  match r !! k with
  | Some x => mret x
  | None => raise (IndexError "list index out of range")
  end.

(** ** Configuration *)

Definition HEADER_11_COL : row :=
  [ "Repo Name"; "File Name"; "File Type"; "Release Version"; "TLSH Hash";
    "Commit_Distance"; "Lines Changed"; "SHA256 Hash"; "Imphash";
    "Date Added"; "Intel" ].

Definition MALWARE_TEST_HASH : string :=
  "T1FE360823FC9710D6C67EE134C6A66732BF71745983317B836EA049666E1AFE46A3D300".
Definition ATTACK_TOOL_TEST_HASH : string :=
  "T199A6337BB48D242BFA2A9736946084737E7E16E8D78B301229F5493A437D1B2F03745".
Definition DEFAULT_MAX_DISTANCE : Z := 50.

(** ** Processing outcomes *)

Inductive status : Type := SUCCESS | SKIPPED | ERROR.

Definition status_str (s : status) : string :=
  match s with
  | SUCCESS => "SUCCESS"
  | SKIPPED => "SKIPPED"
  | ERROR => "ERROR"
  end.

#[global] Instance status_eq_dec : EqDecision status.
Proof. solve_decision. Defined.

(** The triple [(changed, status, message)] a normaliser returns. *)
Definition outcome : Type := bool * status * string.

Definition outcome_changed (o : outcome) : bool := o.1.1.
Definition outcome_status (o : outcome) : status := o.1.2.
Definition outcome_message (o : outcome) : string := o.2.

(** ** normalize_malware_csv *)

(** The [for i, row in enumerate(data_rows, start=2)] loop of
    [normalize_malware_csv]; [updated_rows] is the list being appended to. *)
Fixpoint malware_loop (i : nat) (data_rows : list row) (updated_rows : list row)
  : M (list row) :=
  match data_rows with
  | [] => mret updated_rows
  | r :: rest =>
      if negb (length r =? 8)%nat then
        print ("      [!] Warning: Skipping malformed malware row " +:+ pretty i);;
        malware_loop (S i) rest updated_rows
      else
        r0 ← getitem r 0; r1 ← getitem r 1; r2 ← getitem r 2; r3 ← getitem r 3;
        r4 ← getitem r 4; r5 ← getitem r 5; r6 ← getitem r 6; r7 ← getitem r 7;
        let new_row := [r0; r1; "N/A"; r2; r3; "N/A"; "N/A"; r4; r5; r6; r7] in
        malware_loop (S i) rest (updated_rows ++ [new_row])
  end.

(** [len(data_rows[0]) if data_rows else 0] *)
Definition first_row_len (data_rows : list row) : nat :=
  match data_rows with
  | r :: _ => length r
  | [] => 0
  end.

Definition normalize_malware_body (file_path : string) : M outcome :=
  rows ← open_read_csv file_path;
  match rows with
  | [] => mret (false, SKIPPED, "File '" +:+ file_path +:+ "' is empty.")
  | first :: data_rows =>
      let header := map Str.strip first in
      let header_len := length header in
      let first_row_len := first_row_len data_rows in
      if (header_len =? 11)%nat && (first_row_len =? 11)%nat then
        mret (false, SKIPPED, "File is already in the correct format.")
      else if (header_len =? 8)%nat || ((header_len =? 11)%nat && (first_row_len =? 8)%nat) then
        let action := if (header_len =? 11)%nat then "Fixed" else "Updated" in
        updated_rows ← malware_loop 2 data_rows [HEADER_11_COL];
        write_csv file_path updated_rows;;
        mret (true, SUCCESS, "File was successfully " +:+ action +:+ ".")
      else
        mret (false, SKIPPED,
              "File has an unrecognized malware format (Header: "
              +:+ pretty header_len +:+ ", Row: " +:+ pretty first_row_len +:+ ").")
  end.

Definition normalize_malware_csv (file_path : string) : M outcome :=
  try_except (normalize_malware_body file_path)
    (λ e, mret (false, ERROR, "An unexpected error occurred: " +:+ exn_str e)).

(** ** normalize_attack_tool_csv *)

(** The [for i, row in enumerate(data_rows, start=2)] loop of
    [normalize_attack_tool_csv]. *)
Fixpoint attack_tool_loop (i : nat) (data_rows : list row) (updated_rows : list row)
  : M (list row) :=
  match data_rows with
  | [] => mret updated_rows
  | r :: rest =>
      if negb (length r =? 10)%nat then
        print ("      [!] Warning: Skipping malformed attack tool row " +:+ pretty i);;
        attack_tool_loop (S i) rest updated_rows
      else
        r2 ← getitem r 2;
        let file_type := Str.replace "," ";" r2 in
        r0 ← getitem r 0; r1 ← getitem r 1; r3 ← getitem r 3; r4 ← getitem r 4;
        r5 ← getitem r 5; r6 ← getitem r 6; r7 ← getitem r 7; r8 ← getitem r 8;
        r9 ← getitem r 9;
        let new_row := [r0; r1; file_type; r3; r4; r5; "N/A"; r6; r7; r8; r9] in
        attack_tool_loop (S i) rest (updated_rows ++ [new_row])
  end.

Definition normalize_attack_tool_body (file_path : string) : M outcome :=
  rows ← open_read_csv file_path;
  match rows with
  | [] => mret (false, SKIPPED, "File '" +:+ file_path +:+ "' is empty.")
  | first :: data_rows =>
      let header := map Str.strip first in
      if negb (length header =? 10)%nat then
        mret (false, SKIPPED, "File is not a 10-column attack tool CSV.")
      else
        updated_rows ← attack_tool_loop 2 data_rows [HEADER_11_COL];
        write_csv file_path updated_rows;;
        mret (true, SUCCESS, "File was successfully fixed.")
  end.

Definition normalize_attack_tool_csv (file_path : string) : M outcome :=
  try_except (normalize_attack_tool_body file_path)
    (λ e, mret (false, ERROR, "An unexpected error occurred: " +:+ exn_str e)).

(** ** csv.DictReader *)

(** A cell of a [DictReader] row: a string, or Python's [None], the
    [restval] that fills the columns a short row does not reach. *)
Abbreviation cell := (option string).

(** [print] of a cell inside an f-string. *)
Definition cell_str (c : cell) : string :=
  match c with
  | Some s => s
  | None => "None"
  end.

(** [dict(zip(fieldnames, r))]: later columns of the same name win. *)
Fixpoint dict_zip (fieldnames : list string) (r : row) (d : gmap string cell)
  : gmap string cell :=
  match fieldnames, r with
  | k :: ks, v :: vs => dict_zip ks vs (<[k := Some v]> d)
  | _, _ => d
  end.

(** [for key in keys: d[key] = None] *)
Fixpoint dict_fill (keys : list string) (d : gmap string cell) : gmap string cell :=
  match keys with
  | [] => d
  | k :: ks => dict_fill ks (<[k := None]> d)
  end.

(** The dict [DictReader.__next__] builds from a non-blank row [r].  When
    [r] is longer than the header the surplus goes under the key [None],
    which no string key reads; it is left out. *)
Definition dict_row (fieldnames : list string) (r : row) : gmap string cell :=
  let d := dict_zip fieldnames r ∅ in
  if (length r <? length fieldnames)%nat
  then dict_fill (drop (length r) fieldnames) d
  else d.

(** [d.get(key, default)] *)
Definition dict_get (d : gmap string cell) (key : string) (default : cell) : cell :=
  match d !! key with
  | Some v => v
  | None => default
  end.

(** [c.strip()] on a cell: [None] has no [strip]. *)
Definition cell_strip (c : cell) : M string :=
  match c with
  | Some s => mret (Str.strip s)
  | None => raise (AttributeError "'NoneType' object has no attribute 'strip'")
  end.

(** ** verify_and_match_hashes and main

    The distance oracle [tlsh.diff], the flag [TLSH_AVAILABLE] set by the
    import at the top of the script, and [os.walk] are taken as given. *)
Section Script.

(** [tlsh.diff(a, b)]; [None] stands for the [ValueError] raised on a
    fingerprint the library cannot parse. *)
Variable tlsh_diff : string → string → option Z.

Variable TLSH_AVAILABLE : bool.

(** [os.walk(root_dir)] on the current store: the visited directories,
    each with the names of its files. *)
Variable os_walk : gmap string entry → string → list (string * list string).

(** The [for i, row in enumerate(reader, start=2)] loop of
    [verify_and_match_hashes].  [DictReader] passes over blank rows and
    does not count them. *)
Fixpoint verify_loop (file_path reference_tlsh : string) (max_distance : Z)
    (fieldnames : list string) (i : nat) (rows : list row)
    (matches_found : bool) : M bool :=
  match rows with
  | [] => mret matches_found
  | [] :: rest =>
      verify_loop file_path reference_tlsh max_distance fieldnames i rest
        matches_found
  | r :: rest =>
      let next := verify_loop file_path reference_tlsh max_distance
                    fieldnames (S i) rest in
      let d := dict_row fieldnames r in
      current_tlsh ← cell_strip (dict_get d "TLSH Hash" (Some EmptyString));
      if negb (Str.startswith "T1" current_tlsh) then next matches_found
      else
        match tlsh_diff reference_tlsh current_tlsh with
        | None => next matches_found
        | Some distance =>
            if (distance <? max_distance)%Z then
              let sha256 := dict_get d "SHA256 Hash" (Some "N/A") in
              print ("       [MATCH FOUND] File: " +:+ Path.basename file_path
                     +:+ ", Row: " +:+ pretty i
                     +:+ ", Distance: " +:+ pretty distance
                     +:+ ", SHA256: " +:+ cell_str sha256);;
              next true
            else next matches_found
        end
  end.

(** The body of the [try] of [verify_and_match_hashes].  The script reads
    the rows one by one while it scans: the exception of a file that the
    reader rejects part-way is raised where the reader is asked for a row
    it cannot give, after the rows before it have been scanned.  On an empty
    file [reader.fieldnames] is [None] and the test of the header raises a
    [TypeError], worded here as CPython 3.8 to 3.13 word it. *)
Definition verify_body (file_path reference_tlsh : string) (max_distance : Z)
  : M (bool * bool) :=
  '(rows, final) ← open_csv file_path;
  match rows with
  | [] =>
      match final with
      | Some e => raise e
      | None => raise (TypeError "argument of type 'NoneType' is not iterable")
      end
  | fieldnames :: data =>
      if negb (bool_decide ("TLSH Hash" ∈ fieldnames)) then
        print "       [FAILURE] 'TLSH Hash' column not found.";;
        mret (false, false)
      else
        matches_found ← verify_loop file_path reference_tlsh max_distance
                          fieldnames 2 data false;
        match final with
        | Some e => raise e
        | None => mret tt
        end;;
        (if negb matches_found then
           print ("       [INFO] No matches found below distance "
                  +:+ pretty max_distance +:+ ".")
         else mret tt);;
        mret (true, matches_found)
  end.

Definition verify_and_match_hashes
    (file_path reference_tlsh : string) (max_distance : Z) : M (bool * bool) :=
  print ("    -> Deep Test: '" +:+ Path.basename file_path +:+ "'");;
  try_except (verify_body file_path reference_tlsh max_distance)
    (λ e, print ("       [ERROR] Test failed: Could not read or parse file: "
                 +:+ exn_str e);;
          mret (false, false)).

(** *** find_csv_files *)

(** The two nested [for] loops of [find_csv_files] over what [os.walk]
    yields. *)
Definition csv_files_of (walk : list (string * list string)) : list string :=
  flat_map (λ '(root, names),
    map (Path.join root)
        (List.filter (λ name, Str.endswith ".csv" (Str.lower name)) names))
    walk.

(** [os.walk(root_dir)], run on the store as it is now. *)
Definition walk (root_dir : string) : M (list (string * list string)) := λ w,
  (Returned (os_walk (files w) root_dir), w).

Definition find_csv_files (root_dir : string) : M (list string) :=
  print ("Searching for CSV files in '" +:+ root_dir +:+ "'...");;
  visited ← walk root_dir;
  mret (csv_files_of visited).

(** [os.path.exists(path)] *)
Definition path_exists (path : string) : M bool := λ w,
  (Returned (bool_decide (is_Some (files w !! path))), w).

(** *** main *)

(** The parsed command line.  [file] is [None] when [-f] is not given. *)
Record args : Type := Args {
  normalize_attack_tools : bool;
  file : option string;
  directory : string;
  test : bool;
  max_distance : Z
}.

(** The counters [main] keeps while it goes through the files. *)
Record counters : Type := Counters {
  changed_count : nat;
  skipped_count : nat;
  tests_passed : nat;
  tests_failed : nat;
  files_with_matches : list string
}.

(** The [for file_path in files_to_process] loop of [main]. *)
Fixpoint main_loop (a : args) (normalize_func : string → M outcome)
    (reference_tlsh : string) (files_to_process : list string) (c : counters)
  : M counters :=
  match files_to_process with
  | [] => mret c
  | file_path :: rest =>
      print ("  -> Processing: " +:+ file_path);;
      '(was_changed, status, message) ← normalize_func file_path;
      print ("     [" +:+ status_str status +:+ "] " +:+ message);;
      let c1 :=
        if was_changed : bool then
          Counters (S (changed_count c)) (skipped_count c) (tests_passed c)
            (tests_failed c) (files_with_matches c)
        else if bool_decide (status = SKIPPED) then
          Counters (changed_count c) (S (skipped_count c)) (tests_passed c)
            (tests_failed c) (files_with_matches c)
        else c in
      if test a then
        '(is_readable, found_match) ←
          verify_and_match_hashes file_path reference_tlsh (max_distance a);
        let c2 :=
          if is_readable : bool then
            Counters (changed_count c1) (skipped_count c1)
              (S (tests_passed c1)) (tests_failed c1) (files_with_matches c1)
          else
            Counters (changed_count c1) (skipped_count c1)
              (tests_passed c1) (S (tests_failed c1)) (files_with_matches c1) in
        let c3 :=
          if found_match : bool then
            Counters (changed_count c2) (skipped_count c2) (tests_passed c2)
              (tests_failed c2) (files_with_matches c2 ++ [file_path])
          else c2 in
        main_loop a normalize_func reference_tlsh rest c3
      else main_loop a normalize_func reference_tlsh rest c1
  end.

(** [for x in l: f x] *)
Fixpoint for_each {A : Type} (l : list A) (f : A → M unit) : M unit :=
  match l with
  | [] => mret tt
  | x :: rest => f x;; for_each rest f
  end.

(** The final summary report. *)
Definition print_summary (a : args) (total : nat) (c : counters) : M unit :=
  print (Str.nl +:+ Str.times "=" 60);;
  print (Str.times " " 22 +:+ "Process Summary");;
  print (Str.times "=" 60);;
  print ("Total CSV Files Scanned: " +:+ pretty total);;
  print ("Files Fixed or Updated: " +:+ pretty (changed_count c));;
  print ("Files Skipped: " +:+ pretty (skipped_count c));;
  (if test a then
     print (Str.times "-" 60);;
     print (Str.times " " 18 +:+ "Verification Test Summary");;
     print (Str.times "-" 60);;
     print ("Total Tests Run: " +:+ pretty total);;
     print ("Tests Passed (Readable): " +:+ pretty (tests_passed c));;
     print ("Tests Failed (Unreadable): " +:+ pretty (tests_failed c));;
     match files_with_matches c with
     | [] =>
         print (Str.nl +:+ "No files contained TLSH matches below the threshold.")
     | matching =>
         print (Str.times "-" 60);;
         print ("--- Files with TLSH Matches (Distance < "
                +:+ pretty (max_distance a) +:+ ") ---");;
         for_each matching (λ file_path, print ("  - " +:+ file_path))
     end
   else mret tt);;
  print (Str.times "=" 60).

Definition main (a : args) : M unit :=
  if test a && negb TLSH_AVAILABLE then
    print (Str.nl +:+ "[ERROR] The '--test' feature requires the 'tlsh' library.");;
    print "Please install it by running: pip install tlsh"
  else
    '(normalize_func, reference_tlsh) ←
      (if normalize_attack_tools a then
         print (Str.nl +:+ "--- Running in Attack Tool Normalization Mode ---");;
         mret (normalize_attack_tool_csv, ATTACK_TOOL_TEST_HASH)
       else
         print (Str.nl +:+ "--- Running in Malware Normalization Mode (Default) ---");;
         mret (normalize_malware_csv, MALWARE_TEST_HASH));
    files_to_process ←
      match file a with
      | Some (String c f) =>
          found ← path_exists (String c f);
          mret (if found : bool then [String c f] else [])
      | _ => find_csv_files (directory a)
      end;
    match files_to_process with
    | [] => print "No CSV files found to process."
    | _ =>
        print (Str.nl +:+ "Found " +:+ pretty (length files_to_process)
               +:+ " CSV files. Starting process..." +:+ Str.nl);;
        c ← main_loop a normalize_func reference_tlsh files_to_process
               (Counters 0 0 0 0 []);
        print_summary a (length files_to_process) c
    end.

(** The exit status of [python fix_csv.py ...]: the interpreter exits
    with 0 when [main()] returns and with 1 when an exception escapes. *)
Definition exit_status (a : args) (w : world) : Z :=
  match main a w with
  | (Returned _, _) => 0
  | (Raised _, _) => 1
  end.

End Script.

(** ** The rewriting rules in the words of the specification

    These definitions follow section 4.1 of the specification, not the
    code; the theorems below relate them to the loops of the script. *)

(** Mode A: [[a,b,c,d,e,f,g,h]] becomes
    [[a, b, "N/A", c, d, "N/A", "N/A", e, f, g, h]]; a row of another width
    has no image. *)
Definition canonical_of_legacy8 (r : row) : option row :=
  match r with
  | [a; b; c; d; e; f; g; h] =>
      Some [a; b; "N/A"; c; d; "N/A"; "N/A"; e; f; g; h]
  | _ => None
  end.

(** Mode B: the row is reassembled with the commas of its File Type cell
    turned into semicolons and ["N/A"] inserted at position 6. *)
Definition canonical_of_attack10 (r : row) : option row :=
  match r with
  | [r0; r1; r2; r3; r4; r5; r6; r7; r8; r9] =>
      Some [r0; r1; Str.replace "," ";" r2; r3; r4; r5; "N/A"; r6; r7; r8; r9]
  | _ => None
  end.

(** One warning line per data row whose width is not [width]; the row
    numbers start at [i]. *)
Fixpoint warnings (what : string) (width : nat) (i : nat) (data_rows : list row)
  : list string :=
  match data_rows with
  | [] => []
  | r :: rest =>
      (if (length r =? width)%nat then []
       else ["      [!] Warning: Skipping malformed " +:+ what +:+ " row " +:+ pretty i])
      ++ warnings what width (S i) rest
  end.

(** The data rows of width [width], and the others. *)
Definition well_formed (width : nat) (data_rows : list row) : list row :=
  List.filter (λ r, (length r =? width)%nat) data_rows.
Definition malformed (width : nat) (data_rows : list row) : list row :=
  List.filter (λ r, negb (length r =? width)%nat) data_rows.

(** Section 4.2: the fingerprint cell of a data row, and when a data row is
    a match: its trimmed fingerprint starts with ["T1"], the oracle
    succeeds on it and the distance is strictly below the threshold. *)
Definition fingerprint (fieldnames : list string) (r : row) : cell :=
  dict_get (dict_row fieldnames r) "TLSH Hash" (Some EmptyString).

Definition row_matches (tlsh_diff : string → string → option Z)
    (reference_tlsh : string) (max_distance : Z) (fieldnames : list string)
    (r : row) : bool :=
  match r, fingerprint fieldnames r with
  | _ :: _, Some s =>
      Str.startswith "T1" (Str.strip s)
      && match tlsh_diff reference_tlsh (Str.strip s) with
         | Some distance => (distance <? max_distance)%Z
         | None => false
         end
  | _, _ => false
  end.

(** ** Sample stores and oracles *)
Module Sample.

Definition store (t : list row) : world :=
  World (<["a.csv" := Table t]> ∅) [] [].

(** The same store when [a.csv] cannot be opened for writing. *)
Definition read_only_store (t : list row) : world :=
  WorldRO (<["a.csv" := Table t]> ∅) [] [] {["a.csv"]}.

Definition header8 : row :=
  ["Repo Name"; "File Name"; "Release Version"; "TLSH Hash";
   "SHA256 Hash"; "Imphash"; "Date Added"; "Intel"].

Definition legacy_row : row :=
  ["repoA"; "fileB"; "v1.0"; "T1HASH"; "sha256x"; "imphashY"; "2024-01-01"; "yes"].

Definition header10 : row :=
  ["Repo Name"; "File Name"; "File Type"; "Release Version"; "TLSH Hash";
   "Commit_Distance"; "SHA256 Hash"; "Imphash"; "Date Added"; "Intel"].

Definition attack_row : row :=
  ["repoA"; "tool"; "exe,dll"; "v2"; "T1HASH"; "3"; "sha256x"; "imphashY";
   "2024-01-01"; "yes"].

Definition canonical_row : row :=
  ["repoA"; "fileB"; "exe"; "v1.0"; "T1HASH"; "0"; "12"; "sha256x";
   "imphashY"; "2024-01-01"; "yes"].

Definition header7 : row := ["a"; "b"; "c"; "d"; "e"; "f"; "g"].

(** An oracle that finds every pair of fingerprints at distance 0. *)
Definition always_close (a b : string) : option Z := Some 0%Z.

Definition no_walk (fs : gmap string entry) (root : string)
  : list (string * list string) := [].

End Sample.

(** ** What one run of a normaliser does

    A run on path [p] from world [w] ends in one of three ways.  It opens
    [p] for reading and does nothing more, returning changed = false with a
    status other than SUCCESS.  Or it reads a table with a header row and
    replaces it, under the canonical header, by the images of its data rows
    by [rule], printing some lines [out] on the way.  Or it gets as far as
    opening [p] for writing, which fails: the lines [out] are printed, the
    store stays as it was and the status is ERROR. *)
Inductive run_of (rule : row → option row) (p : string) (w : world)
  : result outcome * world → Prop :=
  | run_reads (st : status) (msg : string) :
      st ≠ SUCCESS →
      run_of rule p w
        (Returned (false, st, msg), with_io_log (io_log w ++ [OpenRead p]) w)
  | run_rewrites (first : row) (data_rows : list row) (msg : string)
      (out : list string) :
      files w !! p = Some (Table (first :: data_rows)) →
      p ∉ read_only w →
      run_of rule p w
        (Returned (true, SUCCESS, msg),
         WorldRO (<[p := Table (HEADER_11_COL :: omap rule data_rows)]> (files w))
                 (stdout w ++ out)
                 (io_log w ++ [OpenRead p; OpenWrite p])
                 (read_only w))
  | run_write_fails (msg : string) (out : list string) :
      p ∈ read_only w →
      run_of rule p w
        (Returned (false, ERROR, msg),
         WorldRO (files w) (stdout w ++ out)
                 (io_log w ++ [OpenRead p; OpenWrite p]) (read_only w)).

(** A computation that returns and does nothing but print. *)
Definition only_prints {A : Type} (m : M A) : Prop :=
  ∀ w, ∃ a out, m w = (Returned a, with_stdout (stdout w ++ out) w).

(** * Properties *)

(** ** The monad *)

(** Unfolds the operations of [M] down to functions on worlds. *)
Ltac unfold_monad := unfold mbind, M_bind, mret, M_ret, raise.

Lemma bind_returned {A B : Type} (m : M A) (k : A → M B) (w w' : world) (a : A) :
  m w = (Returned a, w') → (m ≫= k) w = k a w'.
Proof. intros H. unfold mbind, M_bind. by rewrite H. Qed.

Lemma bind_raised {A B : Type} (m : M A) (k : A → M B) (w w' : world) (e : exn) :
  m w = (Raised e, w') → (m ≫= k) w = (Raised e, w').
Proof. intros H. unfold mbind, M_bind. by rewrite H. Qed.

Lemma try_except_returned {A : Type} (m : M A) (h : exn → M A) w w' a :
  m w = (Returned a, w') → try_except m h w = (Returned a, w').
Proof. intros H. unfold try_except. by rewrite H. Qed.

Lemma try_except_raised {A : Type} (m : M A) (h : exn → M A) w w' e :
  m w = (Raised e, w') → try_except m h w = h e w'.
Proof. intros H. unfold try_except. by rewrite H. Qed.

(** A handler that returns makes the whole [try] return. *)
Lemma try_except_total {A : Type} (m : M A) (h : exn → M A) w :
  (∀ e w1, ∃ a w2, h e w1 = (Returned a, w2)) →
  ∃ a w', try_except m h w = (Returned a, w').
Proof.
  intros Hh. unfold try_except.
  destruct (m w) as [[a|e] w1]; [by eauto | apply Hh].
Qed.

Lemma with_stdout_nil w : with_stdout (stdout w ++ []) w = w.
Proof. destruct w. unfold with_stdout. simpl. by rewrite app_nil_r. Qed.

(** ** Python strings *)

Lemma replace_length old new s :
  String.length (Str.replace old new s) = String.length s.
Proof. induction s as [|c s IH]; simpl; congruence. Qed.

Lemma replace_get old new s i :
  String.get i (Str.replace old new s)
  = (λ c, if Ascii.eqb c old then new else c) <$> String.get i s.
Proof.
  revert i. induction s as [|c s IH]; intros i; simpl; [done|].
  destruct i; simpl; [done | apply IH].
Qed.

Lemma replace_removes old new s :
  old ≠ new → Str.contains old (Str.replace old new s) = false.
Proof.
  intros Hne. induction s as [|c s IH]; simpl; [done|].
  rewrite IH, orb_false_r.
  destruct (Ascii.eqb_spec c old) as [->|Hc].
  - apply Ascii.eqb_neq. congruence.
  - by apply Ascii.eqb_neq.
Qed.

(** ** The row loops *)

Lemma length_strip_header (first : row) : length (map Str.strip first) = length first.
Proof. apply length_map. Qed.

Lemma malware_loop_spec data_rows : ∀ i updated_rows w,
  malware_loop i data_rows updated_rows w
  = (Returned (updated_rows ++ omap canonical_of_legacy8 data_rows),
     with_stdout (stdout w ++ warnings "malware" 8 i data_rows) w).
Proof.
  induction data_rows as [|r rest IH]; intros i acc w.
  - simpl. by rewrite app_nil_r, with_stdout_nil.
  - cbn [malware_loop warnings].
    destruct (length r =? 8)%nat eqn:Hlen; cbn [negb].
    + apply Nat.eqb_eq in Hlen.
      do 9 (destruct r as [|? r]; try discriminate Hlen).
      cbn -[malware_loop]. unfold_monad. rewrite IH. by rewrite <- app_assoc.
    + assert (canonical_of_legacy8 r = None) as Hnone.
      { apply Nat.eqb_neq in Hlen.
        do 9 (destruct r as [|? r]; try done). }
      unfold print. unfold_monad. rewrite IH.
      cbn [omap list_omap]. rewrite Hnone. cbn [stdout with_stdout files io_log].
      unfold with_stdout. cbn. by rewrite <- app_assoc.
Qed.

Lemma attack_tool_loop_spec data_rows : ∀ i updated_rows w,
  attack_tool_loop i data_rows updated_rows w
  = (Returned (updated_rows ++ omap canonical_of_attack10 data_rows),
     with_stdout (stdout w ++ warnings "attack tool" 10 i data_rows) w).
Proof.
  induction data_rows as [|r rest IH]; intros i acc w.
  - simpl. by rewrite app_nil_r, with_stdout_nil.
  - cbn [attack_tool_loop warnings].
    destruct (length r =? 10)%nat eqn:Hlen; cbn [negb].
    + apply Nat.eqb_eq in Hlen.
      do 11 (destruct r as [|? r]; try discriminate Hlen).
      cbn -[attack_tool_loop Str.replace]. unfold_monad.
      rewrite IH. by rewrite <- app_assoc.
    + assert (canonical_of_attack10 r = None) as Hnone.
      { apply Nat.eqb_neq in Hlen.
        do 11 (destruct r as [|? r]; try done). }
      unfold print. unfold_monad. rewrite IH.
      cbn [omap list_omap]. rewrite Hnone.
      unfold with_stdout. cbn. by rewrite <- app_assoc.
Qed.

(** The rows a remapping keeps are the rows of the right width, in order,
    each with its image. *)
Lemma omap_well_formed (f : row → option row) (width : nat) (data_rows : list row) :
  (∀ r, length r ≠ width → f r = None) →
  (∀ r, length r = width → is_Some (f r)) →
  Forall2 (λ r r', f r = Some r') (well_formed width data_rows) (omap f data_rows).
Proof.
  intros Hnone Hsome. unfold well_formed.
  induction data_rows as [|r rest IH]; simpl; [constructor|].
  destruct (length r =? width)%nat eqn:Hlen.
  - apply Nat.eqb_eq in Hlen. destruct (Hsome r Hlen) as [r' Hr'].
    rewrite Hr'. by constructor.
  - apply Nat.eqb_neq in Hlen. by rewrite (Hnone r Hlen).
Qed.

Lemma omap_all_malformed (f : row → option row) (width : nat) (data_rows : list row) :
  (∀ r, length r ≠ width → f r = None) →
  Forall (λ r, length r ≠ width) data_rows →
  omap f data_rows = [].
Proof.
  intros Hnone HF. induction HF as [|r rest Hr _ IH]; simpl; [done|].
  by rewrite (Hnone r Hr).
Qed.

Lemma canonical_of_legacy8_None r : length r ≠ 8 → canonical_of_legacy8 r = None.
Proof. intros H. do 9 (destruct r as [|? r]; try done). Qed.

Lemma canonical_of_legacy8_Some r : length r = 8 → is_Some (canonical_of_legacy8 r).
Proof. intros H. do 9 (destruct r as [|? r]; try done). Qed.

Lemma canonical_of_legacy8_width r r' :
  canonical_of_legacy8 r = Some r' → length r = 8 ∧ length r' = 11.
Proof.
  intros H. do 9 (destruct r as [|? r]; try done).
  by injection H as <-.
Qed.

Lemma canonical_of_attack10_None r : length r ≠ 10 → canonical_of_attack10 r = None.
Proof. intros H. do 11 (destruct r as [|? r]; try done). Qed.

Lemma canonical_of_attack10_Some r : length r = 10 → is_Some (canonical_of_attack10 r).
Proof. intros H. do 11 (destruct r as [|? r]; try done). Qed.

Lemma length_warnings what width i data_rows :
  length (warnings what width i data_rows) = length (malformed width data_rows).
Proof.
  unfold malformed. revert i.
  induction data_rows as [|r rest IH]; intros i; simpl; [done|].
  destruct (length r =? width)%nat; simpl; by rewrite IH.
Qed.

(** After a rewrite in mode A the first data row, if any, has width 11. *)
Lemma first_row_len_legacy8 data_rows :
  first_row_len (omap canonical_of_legacy8 data_rows) = 0
  ∨ first_row_len (omap canonical_of_legacy8 data_rows) = 11.
Proof.
  induction data_rows as [|r rest IH]; simpl; [by left|].
  destruct (canonical_of_legacy8 r) as [r'|] eqn:Hr; [|done].
  right. simpl. by destruct (canonical_of_legacy8_width _ _ Hr).
Qed.

(** ** Reading a file *)

Lemma open_read_csv_table path rows w :
  files w !! path = Some (Table rows) →
  open_read_csv path w
  = (Returned rows, with_io_log (io_log w ++ [OpenRead path]) w).
Proof. intros H. unfold open_read_csv, open_csv. unfold_monad. by rewrite H. Qed.

Lemma open_read_csv_unreadable path e w :
  files w !! path = Some (Unreadable e) →
  open_read_csv path w
  = (Raised e, with_io_log (io_log w ++ [OpenRead path]) w).
Proof. intros H. unfold open_read_csv, open_csv. unfold_monad. by rewrite H. Qed.

Lemma open_read_csv_missing path w :
  files w !! path = None →
  open_read_csv path w
  = (Raised (FileNotFoundError path), with_io_log (io_log w ++ [OpenRead path]) w).
Proof. intros H. unfold open_read_csv, open_csv. unfold_monad. by rewrite H. Qed.

Lemma open_read_csv_corrupt path rows e w :
  files w !! path = Some (Corrupt rows e) →
  open_read_csv path w
  = (Raised e, with_io_log (io_log w ++ [OpenRead path]) w).
Proof. intros H. unfold open_read_csv, open_csv. unfold_monad. by rewrite H. Qed.

(** ** normalize_malware_csv, branch by branch *)

Lemma normalize_malware_empty p w :
  files w !! p = Some (Table []) →
  normalize_malware_csv p w
  = (Returned (false, SKIPPED, "File '" +:+ p +:+ "' is empty."),
     with_io_log (io_log w ++ [OpenRead p]) w).
Proof.
  intros H. unfold normalize_malware_csv, normalize_malware_body.
  apply try_except_returned.
  by rewrite (bind_returned _ _ _ _ _ (open_read_csv_table _ _ _ H)).
Qed.

Lemma normalize_malware_canonical p w first data_rows :
  files w !! p = Some (Table (first :: data_rows)) →
  length first = 11 → first_row_len data_rows = 11 →
  normalize_malware_csv p w
  = (Returned (false, SKIPPED, "File is already in the correct format."),
     with_io_log (io_log w ++ [OpenRead p]) w).
Proof.
  intros H Hh Hr. unfold normalize_malware_csv, normalize_malware_body.
  apply try_except_returned.
  rewrite (bind_returned _ _ _ _ _ (open_read_csv_table _ _ _ H)).
  cbv zeta. by rewrite length_strip_header, Hh, Hr.
Qed.

Lemma normalize_malware_legacy p w first data_rows :
  files w !! p = Some (Table (first :: data_rows)) →
  length first = 8 ∨ (length first = 11 ∧ first_row_len data_rows = 8) →
  p ∉ read_only w →
  normalize_malware_csv p w
  = (Returned (true, SUCCESS,
               "File was successfully "
               +:+ (if (length first =? 11)%nat then "Fixed" else "Updated") +:+ "."),
     WorldRO (<[p := Table (HEADER_11_COL :: omap canonical_of_legacy8 data_rows)]> (files w))
             (stdout w ++ warnings "malware" 8 2 data_rows)
             (io_log w ++ [OpenRead p; OpenWrite p])
             (read_only w)).
Proof.
  intros H Hw Hrw. unfold normalize_malware_csv, normalize_malware_body.
  apply try_except_returned.
  rewrite (bind_returned _ _ _ _ _ (open_read_csv_table _ _ _ H)).
  cbv zeta. rewrite length_strip_header.
  assert (((length first =? 11)%nat && (first_row_len data_rows =? 11)%nat) = false) as ->.
  { destruct Hw as [->|[-> ->]]; done. }
  assert (((length first =? 8)%nat
           || ((length first =? 11)%nat && (first_row_len data_rows =? 8)%nat)) = true) as ->.
  { destruct Hw as [->|[-> ->]]; done. }
  unfold_monad. rewrite malware_loop_spec.
  unfold write_csv, with_files, with_stdout, with_io_log. cbn.
  rewrite (bool_decide_eq_false_2 _ Hrw). by rewrite <- app_assoc.
Qed.

(** The same file when it cannot be opened for writing. *)
Lemma normalize_malware_legacy_read_only p w first data_rows :
  files w !! p = Some (Table (first :: data_rows)) →
  length first = 8 ∨ (length first = 11 ∧ first_row_len data_rows = 8) →
  p ∈ read_only w →
  normalize_malware_csv p w
  = (Returned (false, ERROR,
               "An unexpected error occurred: " +:+ exn_str (PermissionError p)),
     WorldRO (files w)
             (stdout w ++ warnings "malware" 8 2 data_rows)
             (io_log w ++ [OpenRead p; OpenWrite p])
             (read_only w)).
Proof.
  intros H Hw Hro. unfold normalize_malware_csv, normalize_malware_body, try_except.
  rewrite (bind_returned _ _ _ _ _ (open_read_csv_table _ _ _ H)).
  cbv zeta. rewrite length_strip_header.
  assert (((length first =? 11)%nat && (first_row_len data_rows =? 11)%nat) = false) as ->.
  { destruct Hw as [->|[-> ->]]; done. }
  assert (((length first =? 8)%nat
           || ((length first =? 11)%nat && (first_row_len data_rows =? 8)%nat)) = true) as ->.
  { destruct Hw as [->|[-> ->]]; done. }
  unfold_monad. rewrite malware_loop_spec.
  unfold write_csv, with_files, with_stdout, with_io_log. cbn.
  rewrite (bool_decide_eq_true_2 _ Hro). by rewrite <- app_assoc.
Qed.

Lemma normalize_malware_unrecognized p w first data_rows :
  files w !! p = Some (Table (first :: data_rows)) →
  ¬ (length first = 11 ∧ first_row_len data_rows = 11) →
  ¬ (length first = 8 ∨ (length first = 11 ∧ first_row_len data_rows = 8)) →
  normalize_malware_csv p w
  = (Returned (false, SKIPPED,
               "File has an unrecognized malware format (Header: "
               +:+ pretty (length first) +:+ ", Row: "
               +:+ pretty (first_row_len data_rows) +:+ ")."),
     with_io_log (io_log w ++ [OpenRead p]) w).
Proof.
  intros H H11 H8. unfold normalize_malware_csv, normalize_malware_body.
  apply try_except_returned.
  rewrite (bind_returned _ _ _ _ _ (open_read_csv_table _ _ _ H)).
  cbv zeta. rewrite length_strip_header.
  assert (((length first =? 11)%nat && (first_row_len data_rows =? 11)%nat) = false) as ->.
  { apply andb_false_iff.
    destruct (Nat.eqb_spec (length first) 11), (Nat.eqb_spec (first_row_len data_rows) 11);
      tauto. }
  assert (((length first =? 8)%nat
           || ((length first =? 11)%nat && (first_row_len data_rows =? 8)%nat)) = false) as ->.
  { destruct (Nat.eqb_spec (length first) 8), (Nat.eqb_spec (length first) 11),
      (Nat.eqb_spec (first_row_len data_rows) 8); simpl; tauto. }
  done.
Qed.

Lemma normalize_malware_raised p w e :
  open_read_csv p w = (Raised e, with_io_log (io_log w ++ [OpenRead p]) w) →
  normalize_malware_csv p w
  = (Returned (false, ERROR, "An unexpected error occurred: " +:+ exn_str e),
     with_io_log (io_log w ++ [OpenRead p]) w).
Proof.
  intros H. unfold normalize_malware_csv, normalize_malware_body.
  erewrite try_except_raised; [done|]. by apply bind_raised.
Qed.

(** ** normalize_attack_tool_csv, branch by branch *)

Lemma normalize_attack_tool_empty p w :
  files w !! p = Some (Table []) →
  normalize_attack_tool_csv p w
  = (Returned (false, SKIPPED, "File '" +:+ p +:+ "' is empty."),
     with_io_log (io_log w ++ [OpenRead p]) w).
Proof.
  intros H. unfold normalize_attack_tool_csv, normalize_attack_tool_body.
  apply try_except_returned.
  by rewrite (bind_returned _ _ _ _ _ (open_read_csv_table _ _ _ H)).
Qed.

Lemma normalize_attack_tool_unrecognized p w first data_rows :
  files w !! p = Some (Table (first :: data_rows)) →
  length first ≠ 10 →
  normalize_attack_tool_csv p w
  = (Returned (false, SKIPPED, "File is not a 10-column attack tool CSV."),
     with_io_log (io_log w ++ [OpenRead p]) w).
Proof.
  intros H Hh. unfold normalize_attack_tool_csv, normalize_attack_tool_body.
  apply try_except_returned.
  rewrite (bind_returned _ _ _ _ _ (open_read_csv_table _ _ _ H)).
  cbv zeta. rewrite length_strip_header.
  apply Nat.eqb_neq in Hh. by rewrite Hh.
Qed.

Lemma normalize_attack_tool_rewritten p w first data_rows :
  files w !! p = Some (Table (first :: data_rows)) →
  length first = 10 →
  p ∉ read_only w →
  normalize_attack_tool_csv p w
  = (Returned (true, SUCCESS, "File was successfully fixed."),
     WorldRO (<[p := Table (HEADER_11_COL :: omap canonical_of_attack10 data_rows)]> (files w))
             (stdout w ++ warnings "attack tool" 10 2 data_rows)
             (io_log w ++ [OpenRead p; OpenWrite p])
             (read_only w)).
Proof.
  intros H Hh Hrw. unfold normalize_attack_tool_csv, normalize_attack_tool_body.
  apply try_except_returned.
  rewrite (bind_returned _ _ _ _ _ (open_read_csv_table _ _ _ H)).
  cbv zeta. rewrite length_strip_header, Hh. cbn [Nat.eqb negb].
  unfold_monad. rewrite attack_tool_loop_spec.
  unfold write_csv, with_files, with_stdout, with_io_log. cbn.
  rewrite (bool_decide_eq_false_2 _ Hrw). by rewrite <- app_assoc.
Qed.

(** The same file when it cannot be opened for writing. *)
Lemma normalize_attack_tool_read_only p w first data_rows :
  files w !! p = Some (Table (first :: data_rows)) →
  length first = 10 →
  p ∈ read_only w →
  normalize_attack_tool_csv p w
  = (Returned (false, ERROR,
               "An unexpected error occurred: " +:+ exn_str (PermissionError p)),
     WorldRO (files w)
             (stdout w ++ warnings "attack tool" 10 2 data_rows)
             (io_log w ++ [OpenRead p; OpenWrite p])
             (read_only w)).
Proof.
  intros H Hh Hro. unfold normalize_attack_tool_csv, normalize_attack_tool_body, try_except.
  rewrite (bind_returned _ _ _ _ _ (open_read_csv_table _ _ _ H)).
  cbv zeta. rewrite length_strip_header, Hh. cbn [Nat.eqb negb].
  unfold_monad. rewrite attack_tool_loop_spec.
  unfold write_csv, with_files, with_stdout, with_io_log. cbn.
  rewrite (bool_decide_eq_true_2 _ Hro). by rewrite <- app_assoc.
Qed.

Lemma normalize_attack_tool_raised p w e :
  open_read_csv p w = (Raised e, with_io_log (io_log w ++ [OpenRead p]) w) →
  normalize_attack_tool_csv p w
  = (Returned (false, ERROR, "An unexpected error occurred: " +:+ exn_str e),
     with_io_log (io_log w ++ [OpenRead p]) w).
Proof.
  intros H. unfold normalize_attack_tool_csv, normalize_attack_tool_body.
  erewrite try_except_raised; [done|]. by apply bind_raised.
Qed.

(** ** Mode A: the layouts *)

(** C1, as the code has it.  In malware mode a file whose header row and
    first data row both have 11 cells is skipped with the message "File is
    already in the correct format."; a file that has an 11-cell header row
    and no data row is skipped too, with the message for an unrecognized
    format that names the widths 11 and 0.  In both cases the outcome is
    (changed = false, SKIPPED), the file is opened for reading only and the
    store and the output are as before. *)
Theorem malware_canonical11_skipped (p : string) (w : world) (first : row)
    (data_rows : list row) :
  files w !! p = Some (Table (first :: data_rows)) →
  length first = 11 →
  (first_row_len data_rows = 11 →
     normalize_malware_csv p w
     = (Returned (false, SKIPPED, "File is already in the correct format."),
        with_io_log (io_log w ++ [OpenRead p]) w))
  ∧ (data_rows = [] →
     normalize_malware_csv p w
     = (Returned (false, SKIPPED,
                  "File has an unrecognized malware format (Header: 11, Row: 0)."),
        with_io_log (io_log w ++ [OpenRead p]) w)).
Proof.
  intros H Hh. split.
  - intros Hr. by apply (normalize_malware_canonical p w first data_rows).
  - intros ->.
    rewrite (normalize_malware_unrecognized p w first []); [|done|simpl; lia..].
    by rewrite Hh.
Qed.

Lemma malware_canonical11_skipped_witness :
  normalize_malware_csv "a.csv" (Sample.store [HEADER_11_COL; Sample.canonical_row])
  = (Returned (false, SKIPPED, "File is already in the correct format."),
     World (<["a.csv" := Table [HEADER_11_COL; Sample.canonical_row]]> ∅) []
           [OpenRead "a.csv"])
  ∧ normalize_malware_csv "a.csv" (Sample.store [HEADER_11_COL])
    = (Returned (false, SKIPPED,
                 "File has an unrecognized malware format (Header: 11, Row: 0)."),
       World (<["a.csv" := Table [HEADER_11_COL]]> ∅) [] [OpenRead "a.csv"]).
Proof.
  split.
  - apply (malware_canonical11_skipped "a.csv"
             (Sample.store [HEADER_11_COL; Sample.canonical_row])
             HEADER_11_COL [Sample.canonical_row]);
      reflexivity.
  - apply (malware_canonical11_skipped "a.csv"
             (Sample.store [HEADER_11_COL]) HEADER_11_COL []);
      reflexivity.
Defined.

(** C1, as stated, fails on a file that holds the canonical header and
    nothing else: the message is not the "already correct" one. *)
Lemma malware_header_only_not_already_correct :
  files (Sample.store [HEADER_11_COL]) !! "a.csv" = Some (Table [HEADER_11_COL])
  ∧ length HEADER_11_COL = 11
  ∧ ∀ w', normalize_malware_csv "a.csv" (Sample.store [HEADER_11_COL])
          ≠ (Returned (false, SKIPPED, "File is already in the correct format."), w').
Proof.
  split; [reflexivity|]. split; [reflexivity|].
  intros w' H. vm_compute in H. discriminate H.
Qed.

(** C3, as the code has it.  In malware mode a file whose header has 8
    cells, or whose header has 11 cells and whose first data row has 8, and
    that can be opened for writing, is overwritten with the canonical header
    followed by the images of its 8-cell data rows, in order,
    [[a,b,c,d,e,f,g,h]] giving [[a,b,"N/A",c,d,"N/A","N/A",e,f,g,h]]; every
    other data row is dropped with one warning line; the outcome is
    (changed = true, SUCCESS).  When the file cannot be opened for writing
    the same warnings are printed, the file stays as it was and the outcome
    is (changed = false, ERROR) with the text of the exception. *)
Theorem malware_legacy8_rewritten (p : string) (w : world) (first : row)
    (data_rows : list row) :
  files w !! p = Some (Table (first :: data_rows)) →
  length first = 8 ∨ (length first = 11 ∧ first_row_len data_rows = 8) →
  (p ∉ read_only w →
   normalize_malware_csv p w
   = (Returned (true, SUCCESS,
                "File was successfully "
                +:+ (if (length first =? 11)%nat then "Fixed" else "Updated") +:+ "."),
      WorldRO (<[p := Table (HEADER_11_COL :: omap canonical_of_legacy8 data_rows)]> (files w))
              (stdout w ++ warnings "malware" 8 2 data_rows)
              (io_log w ++ [OpenRead p; OpenWrite p])
              (read_only w)))
  ∧ (p ∈ read_only w →
     normalize_malware_csv p w
     = (Returned (false, ERROR,
                  "An unexpected error occurred: " +:+ exn_str (PermissionError p)),
        WorldRO (files w)
                (stdout w ++ warnings "malware" 8 2 data_rows)
                (io_log w ++ [OpenRead p; OpenWrite p])
                (read_only w)))
  ∧ Forall2 (λ r r', canonical_of_legacy8 r = Some r')
      (well_formed 8 data_rows) (omap canonical_of_legacy8 data_rows)
  ∧ length (warnings "malware" 8 2 data_rows) = length (malformed 8 data_rows).
Proof.
  intros H Hw.
  split; [intros Hrw; by apply normalize_malware_legacy|].
  split; [intros Hro; by apply (normalize_malware_legacy_read_only p w first)|]. split.
  - apply omap_well_formed;
      [apply canonical_of_legacy8_None | apply canonical_of_legacy8_Some].
  - apply length_warnings.
Qed.

Lemma malware_legacy8_rewritten_witness :
  normalize_malware_csv "a.csv"
    (Sample.store [Sample.header8; Sample.legacy_row; ["short"; "row"]])
  = (Returned (true, SUCCESS, "File was successfully Updated."),
     World (<["a.csv" := Table
               [HEADER_11_COL;
                ["repoA"; "fileB"; "N/A"; "v1.0"; "T1HASH"; "N/A"; "N/A";
                 "sha256x"; "imphashY"; "2024-01-01"; "yes"]]]> ∅)
           ["      [!] Warning: Skipping malformed malware row 3"]
           [OpenRead "a.csv"; OpenWrite "a.csv"])
  ∧ normalize_malware_csv "a.csv"
      (Sample.store [HEADER_11_COL; Sample.legacy_row; Sample.canonical_row])
    = (Returned (true, SUCCESS, "File was successfully Fixed."),
       World (<["a.csv" := Table
                 [HEADER_11_COL;
                  ["repoA"; "fileB"; "N/A"; "v1.0"; "T1HASH"; "N/A"; "N/A";
                   "sha256x"; "imphashY"; "2024-01-01"; "yes"]]]> ∅)
             ["      [!] Warning: Skipping malformed malware row 3"]
             [OpenRead "a.csv"; OpenWrite "a.csv"])
  ∧ normalize_malware_csv "a.csv"
      (Sample.read_only_store [Sample.header8; Sample.legacy_row; ["short"; "row"]])
    = (Returned (false, ERROR,
                 "An unexpected error occurred: [Errno 13] Permission denied: 'a.csv'"),
       WorldRO (<["a.csv" := Table [Sample.header8; Sample.legacy_row; ["short"; "row"]]]> ∅)
               ["      [!] Warning: Skipping malformed malware row 3"]
               [OpenRead "a.csv"; OpenWrite "a.csv"]
               {["a.csv"]}).
Proof.
  split; [|split].
  - destruct (malware_legacy8_rewritten "a.csv"
                (Sample.store [Sample.header8; Sample.legacy_row; ["short"; "row"]])
                Sample.header8 [Sample.legacy_row; ["short"; "row"]])
      as [Heq _]; [reflexivity | left; reflexivity |].
    rewrite Heq; [vm_compute; reflexivity|].
    apply (bool_decide_eq_false_1 _). reflexivity.
  - destruct (malware_legacy8_rewritten "a.csv"
                (Sample.store [HEADER_11_COL; Sample.legacy_row; Sample.canonical_row])
                HEADER_11_COL [Sample.legacy_row; Sample.canonical_row])
      as [Heq _]; [reflexivity | right; split; reflexivity |].
    rewrite Heq; [vm_compute; reflexivity|].
    apply (bool_decide_eq_false_1 _). reflexivity.
  - destruct (malware_legacy8_rewritten "a.csv"
                (Sample.read_only_store
                   [Sample.header8; Sample.legacy_row; ["short"; "row"]])
                Sample.header8 [Sample.legacy_row; ["short"; "row"]])
      as (_ & Heq & _); [reflexivity | left; reflexivity |].
    rewrite Heq; [vm_compute; reflexivity|].
    apply (bool_decide_eq_true_1 _). reflexivity.
Defined.

(** C3, as stated, fails on a legacy file that cannot be opened for
    writing: the outcome is (changed = false, ERROR) and the file is not
    overwritten. *)
Lemma malware_legacy8_read_only_not_rewritten :
  let w := Sample.read_only_store [Sample.header8; Sample.legacy_row] in
  files w !! "a.csv" = Some (Table [Sample.header8; Sample.legacy_row])
  ∧ length Sample.header8 = 8
  ∧ ∃ message w',
      normalize_malware_csv "a.csv" w = (Returned (false, ERROR, message), w')
      ∧ files w' = files w.
Proof.
  split; [reflexivity|]. split; [reflexivity|].
  eexists _, _. split; vm_compute; reflexivity.
Qed.

(** ** Mode B: the rewrite *)

(** C4, as the code has it.  In attack-tool mode a file whose header has 10
    cells and that can be opened for writing is overwritten with the
    canonical header followed by the images of its 10-cell data rows, in
    order, [[r0..r9]] giving
    [[r0, r1, fileType', r3, r4, r5, "N/A", r6, r7, r8, r9]], where
    [fileType'] is [r2] with every comma turned into a semicolon and no other
    character changed; every other data row is dropped with one warning
    line.  When the file cannot be opened for writing the same warnings are
    printed, the file stays as it was and the outcome is
    (changed = false, ERROR) with the text of the exception. *)
Theorem attack_tool10_rewritten (p : string) (w : world) (first : row)
    (data_rows : list row) :
  files w !! p = Some (Table (first :: data_rows)) →
  length first = 10 →
  (p ∉ read_only w →
   normalize_attack_tool_csv p w
   = (Returned (true, SUCCESS, "File was successfully fixed."),
      WorldRO (<[p := Table (HEADER_11_COL :: omap canonical_of_attack10 data_rows)]> (files w))
              (stdout w ++ warnings "attack tool" 10 2 data_rows)
              (io_log w ++ [OpenRead p; OpenWrite p])
              (read_only w)))
  ∧ (p ∈ read_only w →
     normalize_attack_tool_csv p w
     = (Returned (false, ERROR,
                  "An unexpected error occurred: " +:+ exn_str (PermissionError p)),
        WorldRO (files w)
                (stdout w ++ warnings "attack tool" 10 2 data_rows)
                (io_log w ++ [OpenRead p; OpenWrite p])
                (read_only w)))
  ∧ Forall2 (λ r r', canonical_of_attack10 r = Some r')
      (well_formed 10 data_rows) (omap canonical_of_attack10 data_rows)
  ∧ length (warnings "attack tool" 10 2 data_rows) = length (malformed 10 data_rows)
  ∧ ∀ file_type : string,
      Str.contains "," (Str.replace "," ";" file_type) = false
      ∧ String.length (Str.replace "," ";" file_type) = String.length file_type
      ∧ ∀ i, String.get i (Str.replace "," ";" file_type)
             = (λ c, if Ascii.eqb c "," then ";"%char else c) <$> String.get i file_type.
Proof.
  intros H Hh.
  split; [intros Hrw; by apply (normalize_attack_tool_rewritten p w first data_rows)|].
  split; [intros Hro; by apply (normalize_attack_tool_read_only p w first data_rows)|].
  split; [|split].
  - apply omap_well_formed;
      [apply canonical_of_attack10_None | apply canonical_of_attack10_Some].
  - apply length_warnings.
  - intros s. split; [by apply replace_removes|].
    split; [apply replace_length | intros i; apply replace_get].
Qed.

Lemma attack_tool10_rewritten_witness :
  normalize_attack_tool_csv "a.csv"
    (Sample.store [Sample.header10; Sample.attack_row; Sample.legacy_row])
  = (Returned (true, SUCCESS, "File was successfully fixed."),
     World (<["a.csv" := Table
               [HEADER_11_COL;
                ["repoA"; "tool"; "exe;dll"; "v2"; "T1HASH"; "3"; "N/A";
                 "sha256x"; "imphashY"; "2024-01-01"; "yes"]]]> ∅)
           ["      [!] Warning: Skipping malformed attack tool row 3"]
           [OpenRead "a.csv"; OpenWrite "a.csv"])
  ∧ normalize_attack_tool_csv "a.csv"
      (Sample.read_only_store [Sample.header10; Sample.attack_row; Sample.legacy_row])
    = (Returned (false, ERROR,
                 "An unexpected error occurred: [Errno 13] Permission denied: 'a.csv'"),
       WorldRO (<["a.csv" := Table
                   [Sample.header10; Sample.attack_row; Sample.legacy_row]]> ∅)
               ["      [!] Warning: Skipping malformed attack tool row 3"]
               [OpenRead "a.csv"; OpenWrite "a.csv"]
               {["a.csv"]}).
Proof.
  split.
  - destruct (attack_tool10_rewritten "a.csv"
                (Sample.store [Sample.header10; Sample.attack_row; Sample.legacy_row])
                Sample.header10 [Sample.attack_row; Sample.legacy_row])
      as [Heq _]; [reflexivity | reflexivity |].
    rewrite Heq; [vm_compute; reflexivity|].
    apply (bool_decide_eq_false_1 _). reflexivity.
  - destruct (attack_tool10_rewritten "a.csv"
                (Sample.read_only_store
                   [Sample.header10; Sample.attack_row; Sample.legacy_row])
                Sample.header10 [Sample.attack_row; Sample.legacy_row])
      as (_ & Heq & _); [reflexivity | reflexivity |].
    rewrite Heq; [vm_compute; reflexivity|].
    apply (bool_decide_eq_true_1 _). reflexivity.
Defined.

(** C4, as stated, fails on a 10-column file that cannot be opened for
    writing: no row is rewritten, the File Type cell keeps its comma and the
    outcome is (changed = false, ERROR). *)
Lemma attack_tool10_read_only_not_rewritten :
  let w := Sample.read_only_store [Sample.header10; Sample.attack_row] in
  files w !! "a.csv" = Some (Table [Sample.header10; Sample.attack_row])
  ∧ length Sample.header10 = 10
  ∧ ∃ message w',
      normalize_attack_tool_csv "a.csv" w = (Returned (false, ERROR, message), w')
      ∧ files w' !! "a.csv" = Some (Table [Sample.header10; Sample.attack_row]).
Proof.
  split; [reflexivity|]. split; [reflexivity|].
  eexists _, _. split; vm_compute; reflexivity.
Qed.

(** C10, as the code has it.  In attack-tool mode a file whose header has
    10 cells and that can be opened for writing is always rewritten, with
    outcome (changed = true, SUCCESS); when it has no data row of width 10
    (none at all, or only rows of other widths) it is overwritten with the
    canonical header alone.  There is no "nothing to write" skip: the write
    is attempted in every case, and when the file cannot be opened for
    writing the outcome is (changed = false, ERROR) and the file stays as it
    was.  Malware mode, in contrast, skips a file that holds an 11-cell
    header and no data row, without writing. *)
Theorem attack_tool10_always_rewritten (p : string) (w : world) (first : row)
    (data_rows : list row) :
  files w !! p = Some (Table (first :: data_rows)) →
  length first = 10 →
  (p ∉ read_only w →
   ∃ w', normalize_attack_tool_csv p w
         = (Returned (true, SUCCESS, "File was successfully fixed."), w')
         ∧ io_log w' = io_log w ++ [OpenRead p; OpenWrite p]
         ∧ (Forall (λ r, length r ≠ 10) data_rows →
            files w' !! p = Some (Table [HEADER_11_COL])))
  ∧ (p ∈ read_only w →
     ∃ message w',
       normalize_attack_tool_csv p w = (Returned (false, ERROR, message), w')
       ∧ io_log w' = io_log w ++ [OpenRead p; OpenWrite p]
       ∧ files w' = files w)
  ∧ (∀ w11 first11,
       files w11 !! p = Some (Table [first11]) → length first11 = 11 →
       ∃ message,
         normalize_malware_csv p w11
         = (Returned (false, SKIPPED, message),
            with_io_log (io_log w11 ++ [OpenRead p]) w11)).
Proof.
  intros H Hh. split; [|split].
  - intros Hrw. eexists.
    split; [by apply (normalize_attack_tool_rewritten p w first data_rows)|].
    split; [done|]. intros Hnone. cbn [files].
    rewrite lookup_insert_eq.
    by rewrite (omap_all_malformed _ 10 _ canonical_of_attack10_None Hnone).
  - intros Hro. eexists _, _.
    split; [by apply (normalize_attack_tool_read_only p w first data_rows)|]. done.
  - intros w11 first11 H11 Hlen. eexists.
    apply (normalize_malware_unrecognized p w11 first11 []); [done|simpl; lia..].
Qed.

Lemma attack_tool10_always_rewritten_witness :
  ∃ w', normalize_attack_tool_csv "a.csv"
          (Sample.store [Sample.header10; Sample.legacy_row])
        = (Returned (true, SUCCESS, "File was successfully fixed."), w')
        ∧ files w' !! "a.csv" = Some (Table [HEADER_11_COL]).
Proof.
  destruct (attack_tool10_always_rewritten "a.csv"
              (Sample.store [Sample.header10; Sample.legacy_row])
              Sample.header10 [Sample.legacy_row])
    as [Hrw _]; [reflexivity | reflexivity |].
  destruct Hrw as [w' (Heq & _ & Hfile)];
    [apply (bool_decide_eq_false_1 _); reflexivity|].
  exists w'. split; [exact Heq|]. apply Hfile.
  constructor; [simpl; lia | constructor].
Defined.

(** C10, as stated, fails on a 10-column header-only file that cannot be
    opened for writing: it is not rewritten and the outcome is
    (changed = false, ERROR). *)
Lemma attack_tool10_read_only_header_only :
  let w := Sample.read_only_store [Sample.header10] in
  files w !! "a.csv" = Some (Table [Sample.header10])
  ∧ length Sample.header10 = 10
  ∧ ∃ message w',
      normalize_attack_tool_csv "a.csv" w = (Returned (false, ERROR, message), w')
      ∧ files w' !! "a.csv" = Some (Table [Sample.header10]).
Proof.
  split; [reflexivity|]. split; [reflexivity|].
  eexists _, _. split; vm_compute; reflexivity.
Qed.

(** ** Unrecognized layouts *)

(** C8.  A file whose layout the active mode does not recognize is not
    written: the outcome is (changed = false, SKIPPED), the file is opened
    for reading only and the store is as before.  In malware mode the
    message names the width of the header row and of the first data row. *)
Theorem unrecognized_layout_untouched (p : string) (w : world) (first : row)
    (data_rows : list row) :
  files w !! p = Some (Table (first :: data_rows)) →
  (¬ (length first = 11 ∧ first_row_len data_rows = 11) →
   ¬ (length first = 8 ∨ (length first = 11 ∧ first_row_len data_rows = 8)) →
   normalize_malware_csv p w
   = (Returned (false, SKIPPED,
                "File has an unrecognized malware format (Header: "
                +:+ pretty (length first) +:+ ", Row: "
                +:+ pretty (first_row_len data_rows) +:+ ")."),
      with_io_log (io_log w ++ [OpenRead p]) w))
  ∧ (length first ≠ 10 →
     normalize_attack_tool_csv p w
     = (Returned (false, SKIPPED, "File is not a 10-column attack tool CSV."),
        with_io_log (io_log w ++ [OpenRead p]) w)).
Proof.
  intros H. split.
  - intros H11 H8. by apply normalize_malware_unrecognized.
  - intros H10. by apply (normalize_attack_tool_unrecognized p w first data_rows).
Qed.

Lemma unrecognized_layout_untouched_witness :
  normalize_malware_csv "a.csv" (Sample.store [Sample.header7; Sample.legacy_row])
  = (Returned (false, SKIPPED,
               "File has an unrecognized malware format (Header: 7, Row: 8)."),
     World (<["a.csv" := Table [Sample.header7; Sample.legacy_row]]> ∅) []
           [OpenRead "a.csv"])
  ∧ normalize_attack_tool_csv "a.csv" (Sample.store [Sample.header7; Sample.legacy_row])
    = (Returned (false, SKIPPED, "File is not a 10-column attack tool CSV."),
       World (<["a.csv" := Table [Sample.header7; Sample.legacy_row]]> ∅) []
             [OpenRead "a.csv"]).
Proof.
  destruct (unrecognized_layout_untouched "a.csv"
              (Sample.store [Sample.header7; Sample.legacy_row])
              Sample.header7 [Sample.legacy_row])
    as [Hm Ha]; [reflexivity|].
  split.
  - rewrite Hm; [reflexivity | simpl; lia | simpl; lia].
  - rewrite Ha; [reflexivity | simpl; lia].
Defined.

(** ** Failures stay inside the per-file boundary *)

(** C9.  Neither normaliser raises: on every path and in every world each
    returns an outcome.  An empty file gives (changed = false, SKIPPED).
    Whatever exception the body of a normaliser raises is turned into
    (changed = false, ERROR, message); a path that does not exist and a path
    whose reading raises are such cases, and leave the store as it was. *)
Theorem normalize_never_raises (p : string) (w : world) :
  (∃ o w', normalize_malware_csv p w = (Returned o, w'))
  ∧ (∃ o w', normalize_attack_tool_csv p w = (Returned o, w'))
  ∧ (files w !! p = Some (Table []) →
     normalize_malware_csv p w
     = (Returned (false, SKIPPED, "File '" +:+ p +:+ "' is empty."),
        with_io_log (io_log w ++ [OpenRead p]) w)
     ∧ normalize_attack_tool_csv p w
       = (Returned (false, SKIPPED, "File '" +:+ p +:+ "' is empty."),
          with_io_log (io_log w ++ [OpenRead p]) w))
  ∧ (∀ e w', normalize_malware_body p w = (Raised e, w') →
       normalize_malware_csv p w
       = (Returned (false, ERROR, "An unexpected error occurred: " +:+ exn_str e), w'))
  ∧ (∀ e w', normalize_attack_tool_body p w = (Raised e, w') →
       normalize_attack_tool_csv p w
       = (Returned (false, ERROR, "An unexpected error occurred: " +:+ exn_str e), w'))
  ∧ (∀ e,
       files w !! p = Some (Unreadable e)
       ∨ (files w !! p = None ∧ e = FileNotFoundError p) →
       normalize_malware_csv p w
       = (Returned (false, ERROR, "An unexpected error occurred: " +:+ exn_str e),
          with_io_log (io_log w ++ [OpenRead p]) w)
       ∧ normalize_attack_tool_csv p w
         = (Returned (false, ERROR, "An unexpected error occurred: " +:+ exn_str e),
            with_io_log (io_log w ++ [OpenRead p]) w)).
Proof.
  repeat split.
  - apply try_except_total. intros e w1. by eexists _, _.
  - apply try_except_total. intros e w1. by eexists _, _.
  - by apply normalize_malware_empty.
  - by apply normalize_attack_tool_empty.
  - intros e w' H. unfold normalize_malware_csv.
    by rewrite (try_except_raised _ _ _ _ _ H).
  - intros e w' H. unfold normalize_attack_tool_csv.
    by rewrite (try_except_raised _ _ _ _ _ H).
  - destruct H as [H|[H ->]]; apply normalize_malware_raised;
      [by apply open_read_csv_unreadable | by apply open_read_csv_missing].
  - destruct H as [H|[H ->]]; apply normalize_attack_tool_raised;
      [by apply open_read_csv_unreadable | by apply open_read_csv_missing].
Qed.

Lemma normalize_never_raises_witness :
  normalize_malware_csv "a.csv" (Sample.store [])
  = (Returned (false, SKIPPED, "File 'a.csv' is empty."),
     World (<["a.csv" := Table []]> ∅) [] [OpenRead "a.csv"])
  ∧ normalize_attack_tool_csv "missing.csv" (Sample.store [])
    = (Returned (false, ERROR,
                 "An unexpected error occurred: [Errno 2] No such file or directory: 'missing.csv'"),
       World (<["a.csv" := Table []]> ∅) [] [OpenRead "missing.csv"]).
Proof.
  split.
  - destruct (normalize_never_raises "a.csv" (Sample.store []))
      as (_ & _ & Hempty & _).
    destruct Hempty as [Hm _]; [reflexivity|]. rewrite Hm. reflexivity.
  - destruct (normalize_never_raises "missing.csv" (Sample.store []))
      as (_ & _ & _ & _ & _ & Herr).
    destruct (Herr (FileNotFoundError "missing.csv")) as [_ Ha];
      [right; split; reflexivity|].
    rewrite Ha. reflexivity.
Defined.

(** ** Running mode A twice *)

(** C5, as the code has it.  A second run of malware normalisation never
    changes the file: it leaves the store as the first run left it, with
    changed = false.  Its status is SKIPPED whenever the first run did not
    end in ERROR, and it then opens the file for reading only; when the
    first run ended in ERROR the second run ends with the same ERROR
    outcome, after the same calls of [open]: for reading, and for writing
    too when it is the write that fails. *)
Theorem malware_second_run (p : string) (w : world) :
  ∃ o1 w1 o2 w2,
    normalize_malware_csv p w = (Returned o1, w1)
    ∧ normalize_malware_csv p w1 = (Returned o2, w2)
    ∧ files w2 = files w1
    ∧ outcome_changed o2 = false
    ∧ ((outcome_status o1 ≠ ERROR ∧ outcome_status o2 = SKIPPED
        ∧ io_log w2 = io_log w1 ++ [OpenRead p])
       ∨ (outcome_status o1 = ERROR ∧ o2 = o1
          ∧ (io_log w2 = io_log w1 ++ [OpenRead p]
             ∨ io_log w2 = io_log w1 ++ [OpenRead p; OpenWrite p]))).
Proof.
  destruct (files w !! p) as [[[|first data_rows]|e|rows e]|] eqn:H.
  - (* empty file *)
    eexists _, _, _, _. split; [by apply normalize_malware_empty|].
    split; [by apply normalize_malware_empty|].
    split; [done|]. split; [done|]. by left.
  - destruct (decide (length first = 11 ∧ first_row_len data_rows = 11)) as [[Hh Hr]|H11].
    { eexists _, _, _, _.
      split; [by apply (normalize_malware_canonical p w first data_rows)|].
      split; [by apply (normalize_malware_canonical p _ first data_rows)|].
      split; [done|]. split; [done|]. by left. }
    destruct (decide (length first = 8
                      ∨ (length first = 11 ∧ first_row_len data_rows = 8))) as [H8|H8].
    + destruct (decide (p ∈ read_only w)) as [Hro|Hrw].
      * (* the write fails, twice *)
        eexists _, _, _, _.
        split; [by apply (normalize_malware_legacy_read_only p w first data_rows)|].
        split; [by apply (normalize_malware_legacy_read_only p _ first data_rows)|].
        split; [done|]. split; [done|]. right.
        split; [done|]. split; [done|]. by right.
      * (* rewritten by the first run *)
        pose proof (normalize_malware_legacy p w first data_rows H H8 Hrw) as H1.
        set (w1 := WorldRO _ _ _ _) in H1.
        assert (files w1 !! p
                = Some (Table (HEADER_11_COL :: omap canonical_of_legacy8 data_rows)))
          as Hw1 by apply lookup_insert_eq.
        destruct (first_row_len_legacy8 data_rows) as [H0|H11'].
        -- eexists _, w1, _, _. split; [exact H1|].
           split; [apply (normalize_malware_unrecognized p w1 _ _ Hw1);
                   rewrite H0; simpl; lia|].
           split; [done|]. split; [done|]. by left.
        -- eexists _, w1, _, _. split; [exact H1|].
           split; [by apply (normalize_malware_canonical p w1 _ _ Hw1)|].
           split; [done|]. split; [done|]. by left.
    + eexists _, _, _, _.
      split; [by apply (normalize_malware_unrecognized p w first data_rows)|].
      split; [by apply (normalize_malware_unrecognized p _ first data_rows)|].
      split; [done|]. split; [done|]. by left.
  - eexists _, _, _, _.
    split; [by apply normalize_malware_raised, open_read_csv_unreadable|].
    split; [by apply normalize_malware_raised, open_read_csv_unreadable|].
    split; [done|]. split; [done|]. right. split; [done|]. split; [done|]. by left.
  - eexists _, _, _, _.
    split; [by apply normalize_malware_raised, (open_read_csv_corrupt p rows)|].
    split; [by apply normalize_malware_raised, (open_read_csv_corrupt p rows)|].
    split; [done|]. split; [done|]. right. split; [done|]. split; [done|]. by left.
  - eexists _, _, _, _.
    split; [by apply normalize_malware_raised, open_read_csv_missing|].
    split; [by apply normalize_malware_raised, open_read_csv_missing|].
    split; [done|]. split; [done|]. right. split; [done|]. split; [done|]. by left.
Qed.

(** C5, as stated, fails on a file that cannot be read: the second run
    ends in ERROR, as the first did, not in SKIPPED. *)
Lemma malware_second_run_error :
  let w := World (<["a.csv" := Unreadable (PermissionError "a.csv")]> ∅) [] [] in
  ∃ o1 w1 o2 w2,
    normalize_malware_csv "a.csv" w = (Returned o1, w1)
    ∧ normalize_malware_csv "a.csv" w1 = (Returned o2, w2)
    ∧ outcome_status o2 = ERROR
    ∧ outcome_status o2 ≠ SKIPPED.
Proof.
  eexists _, _, _, _. split; [vm_compute; reflexivity|].
  split; [vm_compute; reflexivity|]. split; [reflexivity | discriminate].
Qed.

(** ** The verification pass *)

Section Verification.

Variable tlsh_diff : string → string → option Z.
Variables (file_path reference_tlsh : string) (max_distance : Z).
Variable fieldnames : list string.

Local Abbreviation loop :=
  (verify_loop tlsh_diff file_path reference_tlsh max_distance fieldnames).
Local Abbreviation matches :=
  (row_matches tlsh_diff reference_tlsh max_distance fieldnames).

Lemma verify_loop_blank i rest b : loop i ([] :: rest) b = loop i rest b.
Proof. reflexivity. Qed.

(** One turn of the loop on a row that has a fingerprint cell. *)
Lemma verify_loop_step i r rest b w s :
  r ≠ [] → fingerprint fieldnames r = Some s →
  ∃ out, loop i (r :: rest) b w
         = loop (S i) rest (b || matches r) (with_stdout (stdout w ++ out) w).
Proof.
  intros Hr Hs. destruct r as [|c cs]; [done|].
  unfold row_matches. cbn [verify_loop].
  fold (fingerprint fieldnames (c :: cs)). rewrite Hs.
  cbn [cell_strip]. unfold_monad.
  destruct (Str.startswith "T1" (Str.strip s)); cbn [negb andb].
  - destruct (tlsh_diff reference_tlsh (Str.strip s)) as [d|].
    + destruct (d <? max_distance)%Z.
      * unfold print. rewrite orb_true_r. by eexists [_].
      * exists []. by rewrite orb_false_r, with_stdout_nil.
    + exists []. by rewrite orb_false_r, with_stdout_nil.
  - exists []. by rewrite orb_false_r, with_stdout_nil.
Qed.

(** A non-blank row that stops short of the fingerprint column ends the
    loop with an exception. *)
Lemma verify_loop_short i r rest b w :
  r ≠ [] → fingerprint fieldnames r = None →
  loop i (r :: rest) b w
  = (Raised (AttributeError "'NoneType' object has no attribute 'strip'"), w).
Proof.
  intros Hr Hs. destruct r as [|c cs]; [done|].
  cbn [verify_loop].
  fold (fingerprint fieldnames (c :: cs)). by rewrite Hs.
Qed.

(** When every non-blank row has a fingerprint cell the loop returns, and
    its flag says whether some row matched. *)
Lemma verify_loop_complete rows : ∀ i b w,
  Forall (λ r, r = [] ∨ is_Some (fingerprint fieldnames r)) rows →
  ∃ out, loop i rows b w
         = (Returned (b || existsb matches rows), with_stdout (stdout w ++ out) w).
Proof.
  induction rows as [|r rest IH]; intros i b w HF.
  - exists []. simpl. by rewrite orb_false_r, with_stdout_nil.
  - inversion HF as [|? ? Hr Hrest]; subst.
    destruct (decide (r = [])) as [->|Hne].
    + rewrite verify_loop_blank. destruct (IH i b w Hrest) as [out Hout].
      exists out. by rewrite Hout.
    + destruct Hr as [?|[s Hs]]; [done|].
      destruct (verify_loop_step i r rest b w s Hne Hs) as [out1 H1].
      destruct (IH (S i) (b || matches r) (with_stdout (stdout w ++ out1) w) Hrest)
        as [out2 H2].
      exists (out1 ++ out2). rewrite H1, H2. cbn [existsb].
      rewrite orb_assoc. unfold with_stdout. cbn. by rewrite app_assoc.
Qed.

(** The loop raises as soon as it meets a non-blank row without a
    fingerprint cell, whatever it has found before. *)
Lemma verify_loop_raises rows : ∀ i b w,
  Exists (λ r, r ≠ [] ∧ fingerprint fieldnames r = None) rows →
  ∃ out, loop i rows b w
         = (Raised (AttributeError "'NoneType' object has no attribute 'strip'"),
            with_stdout (stdout w ++ out) w).
Proof.
  induction rows as [|r rest IH]; intros i b w HE; [by inversion HE|].
  destruct (decide (r = [])) as [->|Hne].
  - rewrite verify_loop_blank. apply IH.
    inversion HE as [? ? [Hr _]|]; by subst.
  - destruct (fingerprint fieldnames r) as [s|] eqn:Hs.
    + destruct (verify_loop_step i r rest b w s Hne Hs) as [out1 H1].
      assert (Exists (λ r, r ≠ [] ∧ fingerprint fieldnames r = None) rest) as HE'.
      { inversion HE as [? ? [_ Hr]|]; subst; [congruence | done]. }
      destruct (IH (S i) (b || matches r) (with_stdout (stdout w ++ out1) w) HE')
        as [out2 H2].
      exists (out1 ++ out2). rewrite H1, H2.
      unfold with_stdout. cbn. by rewrite app_assoc.
    + exists []. rewrite with_stdout_nil. by apply verify_loop_short.
Qed.

End Verification.

(** A row at least as wide as the header has a cell under every column. *)
Lemma dict_zip_all_strings fieldnames : ∀ r d,
  map_Forall (λ _ v, is_Some v) d →
  map_Forall (λ _ v, is_Some v) (dict_zip fieldnames r d).
Proof.
  induction fieldnames as [|k ks IH]; intros r d Hd; [done|].
  destruct r as [|v vs]; [done|]. cbn [dict_zip].
  apply IH. by apply map_Forall_insert_2.
Qed.

Lemma fingerprint_wide_row fieldnames r :
  (length fieldnames ≤ length r)%nat → is_Some (fingerprint fieldnames r).
Proof.
  intros Hlen. unfold fingerprint, dict_row, dict_get.
  assert ((length r <? length fieldnames)%nat = false) as ->
    by (apply Nat.ltb_ge; lia).
  destruct (dict_zip fieldnames r ∅ !! "TLSH Hash") as [v|] eqn:Hv; [|done].
  by apply (dict_zip_all_strings fieldnames r ∅ (map_Forall_empty _) _ _ Hv).
Qed.

(** The outcome of verification on a file that can be read, whose header
    names the fingerprint column and whose non-blank rows all reach it:
    readable, and matched exactly when some row matches. *)
Lemma verify_scanned tlsh_diff p reference_tlsh max_distance w fieldnames data :
  files w !! p = Some (Table (fieldnames :: data)) →
  "TLSH Hash" ∈ fieldnames →
  Forall (λ r, r = [] ∨ is_Some (fingerprint fieldnames r)) data →
  ∃ w', verify_and_match_hashes tlsh_diff p reference_tlsh max_distance w
        = (Returned (true,
                     existsb (row_matches tlsh_diff reference_tlsh max_distance fieldnames)
                       data), w')
        ∧ files w' = files w ∧ io_log w' = io_log w ++ [OpenRead p].
Proof.
  intros H Hcol HF.
  unfold verify_and_match_hashes, verify_body, print, try_except. unfold_monad.
  unfold open_csv. cbn [files with_stdout]. rewrite H.
  rewrite (bool_decide_eq_true_2 _ Hcol). cbn [negb].
  edestruct (verify_loop_complete tlsh_diff p reference_tlsh max_distance
               fieldnames data 2 false) as [out Hout]; [exact HF|].
  rewrite Hout. cbn [orb].
  destruct (existsb _ data); cbn [negb]; by eexists.
Qed.

(** The outcome of verification when the file cannot be read, is empty, or
    has a header without the fingerprint column: not readable, no match. *)
Lemma verify_unreadable tlsh_diff p reference_tlsh max_distance w :
  (files w !! p = None ∨ (∃ e, files w !! p = Some (Unreadable e))
   ∨ files w !! p = Some (Table [])
   ∨ ∃ fieldnames data, files w !! p = Some (Table (fieldnames :: data))
                        ∧ "TLSH Hash" ∉ fieldnames) →
  ∃ w', verify_and_match_hashes tlsh_diff p reference_tlsh max_distance w
        = (Returned (false, false), w')
        ∧ files w' = files w ∧ io_log w' = io_log w ++ [OpenRead p].
Proof.
  intros Hcase.
  unfold verify_and_match_hashes, verify_body, print, try_except. unfold_monad.
  unfold open_csv. cbn [files with_stdout].
  destruct Hcase as [H|[[e H]|[H|(fieldnames & data & H & Hcol)]]]; rewrite H;
    try by eexists.
  rewrite (bool_decide_eq_false_2 _ Hcol). by eexists.
Qed.

(** The outcome of verification on a file that can be read and whose header
    names the fingerprint column, but where some non-blank row stops short
    of that column: not readable, no match, even when an earlier row
    matched. *)
Lemma verify_short_row tlsh_diff p reference_tlsh max_distance w fieldnames data :
  files w !! p = Some (Table (fieldnames :: data)) →
  "TLSH Hash" ∈ fieldnames →
  Exists (λ r, r ≠ [] ∧ fingerprint fieldnames r = None) data →
  ∃ w', verify_and_match_hashes tlsh_diff p reference_tlsh max_distance w
        = (Returned (false, false), w')
        ∧ files w' = files w ∧ io_log w' = io_log w ++ [OpenRead p].
Proof.
  intros H Hcol HE.
  unfold verify_and_match_hashes, verify_body, print, try_except. unfold_monad.
  unfold open_csv. cbn [files with_stdout]. rewrite H.
  rewrite (bool_decide_eq_true_2 _ Hcol). cbn [negb].
  edestruct (verify_loop_raises tlsh_diff p reference_tlsh max_distance
               fieldnames data 2 false) as [out Hout]; [exact HE|].
  rewrite Hout. by eexists.
Qed.

(** When a row counts as a match: the strict comparison leaves out a
    distance equal to the threshold. *)
Lemma row_matches_iff tlsh_diff reference_tlsh max_distance fieldnames r :
  row_matches tlsh_diff reference_tlsh max_distance fieldnames r = true
  ↔ r ≠ [] ∧ ∃ s distance,
      fingerprint fieldnames r = Some s
      ∧ Str.startswith "T1" (Str.strip s) = true
      ∧ tlsh_diff reference_tlsh (Str.strip s) = Some distance
      ∧ (distance < max_distance)%Z.
Proof.
  unfold row_matches. split.
  - destruct r as [|c cs]; [done|].
    destruct (fingerprint fieldnames (c :: cs)) as [s|]; [|done].
    intros [Hpre Hd]%andb_true_iff.
    destruct (tlsh_diff reference_tlsh (Str.strip s)) as [d|] eqn:Hdiff; [|done].
    split; [done|]. exists s, d. by apply Z.ltb_lt in Hd.
  - intros [Hne (s & d & Hs & Hpre & Hdiff & Hd)].
    destruct r; [done|]. rewrite Hs, Hpre, Hdiff. by apply Z.ltb_lt.
Qed.

(** C6 at a failing input.  The file has the canonical header, one row
    whose fingerprint starts with "T1" and lies at distance 0 < 50 from the
    reference, and then a one-cell row.  The first row matches and the
    match is printed; the short row then raises, and the function returns
    matched = false. *)
Theorem verify_match_lost_after_short_row :
  let w := Sample.store [HEADER_11_COL; Sample.canonical_row; ["truncated"]] in
  row_matches Sample.always_close MALWARE_TEST_HASH 50 HEADER_11_COL
    Sample.canonical_row = true
  ∧ verify_and_match_hashes Sample.always_close "a.csv" MALWARE_TEST_HASH 50 w
    = (Returned (false, false),
       World (files w)
         ["    -> Deep Test: 'a.csv'";
          "       [MATCH FOUND] File: a.csv, Row: 2, Distance: 0, SHA256: sha256x";
          "       [ERROR] Test failed: Could not read or parse file: 'NoneType' object has no attribute 'strip'"]
         [OpenRead "a.csv"]).
Proof. split; vm_compute; reflexivity. Qed.

(** C7 at a failing input.  The file can be read and its header names the
    fingerprint column, but its only data row stops short of that column:
    the function returns readable = false. *)
Theorem verify_short_row_not_readable :
  let w := Sample.store [["Repo Name"; "TLSH Hash"]; ["repoA"]] in
  files w !! "a.csv" = Some (Table [["Repo Name"; "TLSH Hash"]; ["repoA"]])
  ∧ "TLSH Hash" ∈ ["Repo Name"; "TLSH Hash"]
  ∧ verify_and_match_hashes Sample.always_close "a.csv" MALWARE_TEST_HASH 50 w
    = (Returned (false, false),
       World (files w)
         ["    -> Deep Test: 'a.csv'";
          "       [ERROR] Test failed: Could not read or parse file: 'NoneType' object has no attribute 'strip'"]
         [OpenRead "a.csv"]).
Proof.
  split; [reflexivity|]. split; [set_solver|]. vm_compute. reflexivity.
Qed.

(** ** The precondition of [main] *)

(** C2, as the code has it.  When [--test] is given and the [tlsh] library
    is not available, [main] prints its two lines of diagnostic and returns:
    no file is opened, the store is as before, nothing else is printed.
    [main] returns normally, so the exit status is 0. *)
Theorem main_aborts_without_oracle
    (tlsh_diff : string → string → option Z)
    (os_walk : gmap string entry → string → list (string * list string))
    (a : args) (w : world) :
  test a = true →
  main tlsh_diff false os_walk a w
  = (Returned tt,
     with_stdout
       (stdout w
        ++ [Str.nl +:+ "[ERROR] The '--test' feature requires the 'tlsh' library.";
            "Please install it by running: pip install tlsh"]) w)
  ∧ exit_status tlsh_diff false os_walk a w = 0%Z.
Proof.
  intros Ht.
  assert (main tlsh_diff false os_walk a w
          = (Returned tt,
             with_stdout
               (stdout w
                ++ [Str.nl +:+ "[ERROR] The '--test' feature requires the 'tlsh' library.";
                    "Please install it by running: pip install tlsh"]) w)) as Hmain.
  { unfold main. rewrite Ht. cbn [negb andb]. unfold print. unfold_monad.
    unfold with_stdout. cbn. by rewrite <- app_assoc. }
  split; [exact Hmain|]. unfold exit_status. by rewrite Hmain.
Qed.

Lemma main_aborts_without_oracle_witness :
  main Sample.always_close false Sample.no_walk
    (Args false (Some "a.csv") "." true 50)
    (Sample.store [Sample.header8; Sample.legacy_row])
  = (Returned tt,
     World (<["a.csv" := Table [Sample.header8; Sample.legacy_row]]> ∅)
       [Str.nl +:+ "[ERROR] The '--test' feature requires the 'tlsh' library.";
        "Please install it by running: pip install tlsh"]
       []).
Proof.
  destruct (main_aborts_without_oracle Sample.always_close Sample.no_walk
              (Args false (Some "a.csv") "." true 50)
              (Sample.store [Sample.header8; Sample.legacy_row]))
    as [Hmain _]; [reflexivity|].
  rewrite Hmain. reflexivity.
Defined.

(** C2, as stated, fails on the exit status: with [--test] given and [tlsh]
    unavailable the script exits with status 0, not with a non-zero one. *)
Lemma main_without_oracle_exits_zero :
  test (Args false (Some "a.csv") "." true 50) = true
  ∧ ¬ (exit_status Sample.always_close false Sample.no_walk
         (Args false (Some "a.csv") "." true 50)
         (Sample.store [Sample.header8; Sample.legacy_row]) ≠ 0%Z).
Proof. split; [reflexivity|]. intros H. apply H. vm_compute. reflexivity. Qed.

(** * Further properties of the script *)

(** ** The two normalisers as runs *)

Lemma normalize_malware_run p w :
  run_of canonical_of_legacy8 p w (normalize_malware_csv p w).
Proof.
  destruct (files w !! p) as [[[|first data_rows]|e|rows e]|] eqn:H.
  - rewrite (normalize_malware_empty p w H). by constructor.
  - destruct (decide (length first = 11 ∧ first_row_len data_rows = 11)) as [[Hh Hr]|H11].
    { rewrite (normalize_malware_canonical p w first data_rows H Hh Hr).
      by constructor. }
    destruct (decide (length first = 8
                      ∨ (length first = 11 ∧ first_row_len data_rows = 8))) as [H8|H8].
    + destruct (decide (p ∈ read_only w)) as [Hro|Hrw].
      * rewrite (normalize_malware_legacy_read_only p w first data_rows H H8 Hro).
        by constructor.
      * rewrite (normalize_malware_legacy p w first data_rows H H8 Hrw).
        by apply (run_rewrites _ _ _ first).
    + rewrite (normalize_malware_unrecognized p w first data_rows H H11 H8).
      by constructor.
  - rewrite (normalize_malware_raised p w e (open_read_csv_unreadable p e w H)).
    by constructor.
  - rewrite (normalize_malware_raised p w e (open_read_csv_corrupt p rows e w H)).
    by constructor.
  - rewrite (normalize_malware_raised p w _ (open_read_csv_missing p w H)).
    by constructor.
Qed.

Lemma normalize_attack_tool_run p w :
  run_of canonical_of_attack10 p w (normalize_attack_tool_csv p w).
Proof.
  destruct (files w !! p) as [[[|first data_rows]|e|rows e]|] eqn:H.
  - rewrite (normalize_attack_tool_empty p w H). by constructor.
  - destruct (decide (length first = 10)) as [H10|H10].
    + destruct (decide (p ∈ read_only w)) as [Hro|Hrw].
      * rewrite (normalize_attack_tool_read_only p w first data_rows H H10 Hro).
        by constructor.
      * rewrite (normalize_attack_tool_rewritten p w first data_rows H H10 Hrw).
        by apply (run_rewrites _ _ _ first).
    + rewrite (normalize_attack_tool_unrecognized p w first data_rows H H10).
      by constructor.
  - rewrite (normalize_attack_tool_raised p w e (open_read_csv_unreadable p e w H)).
    by constructor.
  - rewrite (normalize_attack_tool_raised p w e (open_read_csv_corrupt p rows e w H)).
    by constructor.
  - rewrite (normalize_attack_tool_raised p w _ (open_read_csv_missing p w H)).
    by constructor.
Qed.

(** What every run has in common. *)
Lemma run_of_effects rule p w r :
  run_of rule p w r →
  ∃ o w', r = (Returned o, w')
    ∧ (outcome_changed o = true ↔ outcome_status o = SUCCESS)
    ∧ (outcome_changed o = true
       → io_log w' = io_log w ++ [OpenRead p; OpenWrite p])
    ∧ (outcome_changed o = false → files w' = files w)
    ∧ (outcome_status o = SKIPPED
       → w' = with_io_log (io_log w ++ [OpenRead p]) w)
    ∧ (∀ q, q ≠ p → files w' !! q = files w !! q).
Proof.
  intros [st msg Hst|first data_rows msg out H Hrw|msg out Hro];
    eexists _, _; (split; [done|]).
  - split; [split; [done | intros Hs; by destruct Hst]|]. by repeat split.
  - split; [done|]. split; [done|]. split; [done|]. split; [done|].
    intros q Hq. cbn [files]. by rewrite lookup_insert_ne.
  - by repeat split.
Qed.

(** A run that changed the file left a canonical table behind. *)
Lemma run_of_rewritten rule p w o w' :
  run_of rule p w (Returned o, w') → outcome_changed o = true →
  ∃ first data_rows,
    files w !! p = Some (Table (first :: data_rows))
    ∧ files w' = <[p := Table (HEADER_11_COL :: omap rule data_rows)]> (files w).
Proof.
  intros Hrun Hch.
  inversion Hrun as [st msg Hst|first data_rows msg out H Hrw|msg out Hro]; subst.
  - discriminate Hch.
  - by exists first, data_rows.
  - discriminate Hch.
Qed.

(** ** Outcomes, open calls and the rest of the store *)



(** ** The rewritten file is canonical *)

Lemma canonical_of_legacy8_shape r r' :
  canonical_of_legacy8 r = Some r' →
  length r' = 11
  ∧ r' !! 2 = Some "N/A" ∧ r' !! 5 = Some "N/A" ∧ r' !! 6 = Some "N/A".
Proof.
  intros H. do 9 (destruct r as [|? r]; try done).
  by injection H as <-.
Qed.

Lemma canonical_of_attack10_shape r r' :
  canonical_of_attack10 r = Some r' →
  length r' = 11
  ∧ r' !! 6 = Some "N/A"
  ∧ ∃ file_type, r' !! 2 = Some file_type ∧ Str.contains "," file_type = false.
Proof.
  intros H. do 11 (destruct r as [|? r]; try done).
  injection H as <-. repeat split. eexists. split; [done|].
  by apply replace_removes.
Qed.

Lemma Forall_omap_image (rule : row → option row) (P : row → Prop) data_rows :
  (∀ r r', rule r = Some r' → P r') → Forall P (omap rule data_rows).
Proof.
  intros HP. apply Forall_forall. intros r' (r & _ & Hr)%list_elem_of_omap.
  by apply (HP r).
Qed.

(** X3.  Whenever malware normalisation reports a change, the file then
    holds the canonical header followed by rows of exactly 11 cells, each
    with "N/A" in the File Type, Commit_Distance and Lines Changed
    columns. *)
Theorem malware_rewrite_is_canonical (p : string) (w w' : world) (o : outcome) :
  normalize_malware_csv p w = (Returned o, w') →
  outcome_changed o = true →
  ∃ rows,
    files w' !! p = Some (Table (HEADER_11_COL :: rows))
    ∧ Forall (λ r, length r = 11
                   ∧ r !! 2 = Some "N/A" ∧ r !! 5 = Some "N/A" ∧ r !! 6 = Some "N/A")
        rows.
Proof.
  intros Hrun Hch. pose proof (normalize_malware_run p w) as Hr. rewrite Hrun in Hr.
  destruct (run_of_rewritten _ _ _ _ _ Hr Hch) as (first & data_rows & _ & ->).
  eexists. split; [apply lookup_insert_eq|].
  apply Forall_omap_image, canonical_of_legacy8_shape.
Qed.

Lemma malware_rewrite_is_canonical_witness :
  ∃ rows,
    files (normalize_malware_csv "a.csv"
             (Sample.store [Sample.header8; Sample.legacy_row; ["short"]])).2
      !! "a.csv" = Some (Table (HEADER_11_COL :: rows))
    ∧ Forall (λ r, length r = 11
                   ∧ r !! 2 = Some "N/A" ∧ r !! 5 = Some "N/A" ∧ r !! 6 = Some "N/A")
        rows.
Proof.
  apply (malware_rewrite_is_canonical "a.csv"
           (Sample.store [Sample.header8; Sample.legacy_row; ["short"]]) _
           (true, SUCCESS, "File was successfully Updated."));
    vm_compute; reflexivity.
Defined.

(** X4.  Whenever attack-tool normalisation reports a change, the file then
    holds the canonical header followed by rows of exactly 11 cells, each
    with "N/A" in the Lines Changed column and a File Type cell free of
    commas. *)
Theorem attack_tool_rewrite_is_canonical (p : string) (w w' : world) (o : outcome) :
  normalize_attack_tool_csv p w = (Returned o, w') →
  outcome_changed o = true →
  ∃ rows,
    files w' !! p = Some (Table (HEADER_11_COL :: rows))
    ∧ Forall (λ r, length r = 11
                   ∧ r !! 6 = Some "N/A"
                   ∧ ∃ file_type, r !! 2 = Some file_type
                                  ∧ Str.contains "," file_type = false)
        rows.
Proof.
  intros Hrun Hch. pose proof (normalize_attack_tool_run p w) as Hr. rewrite Hrun in Hr.
  destruct (run_of_rewritten _ _ _ _ _ Hr Hch) as (first & data_rows & _ & ->).
  eexists. split; [apply lookup_insert_eq|].
  apply Forall_omap_image, canonical_of_attack10_shape.
Qed.

Lemma attack_tool_rewrite_is_canonical_witness :
  ∃ rows,
    files (normalize_attack_tool_csv "a.csv"
             (Sample.store [Sample.header10; Sample.attack_row; ["short"]])).2
      !! "a.csv" = Some (Table (HEADER_11_COL :: rows))
    ∧ Forall (λ r, length r = 11
                   ∧ r !! 6 = Some "N/A"
                   ∧ ∃ file_type, r !! 2 = Some file_type
                                  ∧ Str.contains "," file_type = false)
        rows.
Proof.
  apply (attack_tool_rewrite_is_canonical "a.csv"
           (Sample.store [Sample.header10; Sample.attack_row; ["short"]]) _
           (true, SUCCESS, "File was successfully fixed."));
    vm_compute; reflexivity.
Defined.

(** ** Running a normaliser on a file that was rewritten *)

Lemma first_row_len_canonical (rows : list row) :
  Forall (λ r, length r = 11) rows →
  first_row_len rows = 0 ∨ first_row_len rows = 11.
Proof. intros [|r rest Hr _]; [by left | by right]. Qed.

Lemma canonical_of_attack10_width r r' :
  canonical_of_attack10 r = Some r' → length r' = 11.
Proof. intros H. by destruct (canonical_of_attack10_shape r r' H). Qed.

Lemma legacy8_width r r' : canonical_of_legacy8 r = Some r' → length r' = 11.
Proof. intros H. by destruct (canonical_of_legacy8_shape r r' H). Qed.

(** Either normaliser skips a file that holds the canonical header and
    rows of 11 cells. *)
Lemma canonical_table_skipped (norm : string → M outcome) p w rows :
  norm = normalize_malware_csv ∨ norm = normalize_attack_tool_csv →
  files w !! p = Some (Table (HEADER_11_COL :: rows)) →
  Forall (λ r, length r = 11) rows →
  ∃ msg, norm p w
         = (Returned (false, SKIPPED, msg), with_io_log (io_log w ++ [OpenRead p]) w).
Proof.
  intros [->| ->] H HF.
  - destruct (first_row_len_canonical rows HF) as [H0|H11].
    + eexists. apply (normalize_malware_unrecognized p w _ _ H);
        rewrite H0; simpl; lia.
    + eexists. by apply (normalize_malware_canonical p w _ _ H).
  - eexists. by apply (normalize_attack_tool_unrecognized p w _ _ H).
Qed.

(** The table either normaliser leaves behind when it reports a change. *)
Lemma rewritten_table (norm : string → M outcome) p w o w1 :
  norm = normalize_malware_csv ∨ norm = normalize_attack_tool_csv →
  norm p w = (Returned o, w1) → outcome_changed o = true →
  ∃ rows, files w1 !! p = Some (Table (HEADER_11_COL :: rows))
          ∧ Forall (λ r, length r = 11) rows.
Proof.
  intros [->| ->] Hrun Hch.
  - pose proof (normalize_malware_run p w) as Hr. rewrite Hrun in Hr.
    destruct (run_of_rewritten _ _ _ _ _ Hr Hch) as (first & data_rows & _ & ->).
    eexists. split; [apply lookup_insert_eq|].
    apply Forall_omap_image, legacy8_width.
  - pose proof (normalize_attack_tool_run p w) as Hr. rewrite Hrun in Hr.
    destruct (run_of_rewritten _ _ _ _ _ Hr Hch) as (first & data_rows & _ & ->).
    eexists. split; [apply lookup_insert_eq|].
    apply Forall_omap_image, canonical_of_attack10_width.
Qed.

(** X5.  Once a normaliser, in either mode, has reported a change on a
    file, a further run on that file, in either mode, reports
    (changed = false, SKIPPED), opens the file for reading only and leaves
    the store and the output as they were. *)
Theorem rewritten_file_is_stable (norm1 norm2 : string → M outcome)
    (p : string) (w w1 : world) (o : outcome) :
  norm1 = normalize_malware_csv ∨ norm1 = normalize_attack_tool_csv →
  norm2 = normalize_malware_csv ∨ norm2 = normalize_attack_tool_csv →
  norm1 p w = (Returned o, w1) →
  outcome_changed o = true →
  ∃ msg, norm2 p w1
         = (Returned (false, SKIPPED, msg),
            with_io_log (io_log w1 ++ [OpenRead p]) w1).
Proof.
  intros H1 H2 Hrun Hch.
  destruct (rewritten_table norm1 p w o w1 H1 Hrun Hch) as (rows & Hfile & HF).
  by apply (canonical_table_skipped norm2 p w1 rows).
Qed.

Lemma rewritten_file_is_stable_witness :
  ∃ msg,
    normalize_malware_csv "a.csv"
      (normalize_attack_tool_csv "a.csv"
         (Sample.store [Sample.header10; Sample.attack_row])).2
    = (Returned (false, SKIPPED, msg),
       with_io_log
         (io_log (normalize_attack_tool_csv "a.csv"
                    (Sample.store [Sample.header10; Sample.attack_row])).2
          ++ [OpenRead "a.csv"])
         (normalize_attack_tool_csv "a.csv"
            (Sample.store [Sample.header10; Sample.attack_row])).2).
Proof.
  apply (rewritten_file_is_stable normalize_attack_tool_csv normalize_malware_csv
           "a.csv" (Sample.store [Sample.header10; Sample.attack_row]) _
           (true, SUCCESS, "File was successfully fixed."));
    [by right | by left | vm_compute; reflexivity | reflexivity].
Defined.

(** ** The columns of a rewritten row *)

(** X6.  Read back under the canonical header, a rewritten row has the
    fingerprint of its source row in the TLSH Hash column and its content
    hash in the SHA256 Hash column: cells 3 and 4 of an 8-cell malware row,
    cells 4 and 6 of a 10-cell attack-tool row. *)
Theorem rewritten_row_columns (r r' : row) :
  (canonical_of_legacy8 r = Some r' →
   dict_get (dict_row HEADER_11_COL r') "TLSH Hash" (Some EmptyString) = r !! 3
   ∧ dict_get (dict_row HEADER_11_COL r') "SHA256 Hash" (Some "N/A") = r !! 4)
  ∧ (canonical_of_attack10 r = Some r' →
     dict_get (dict_row HEADER_11_COL r') "TLSH Hash" (Some EmptyString) = r !! 4
     ∧ dict_get (dict_row HEADER_11_COL r') "SHA256 Hash" (Some "N/A") = r !! 6).
Proof.
  split; intros H.
  - do 9 (destruct r as [|? r]; try done). injection H as <-.
    split; vm_compute; reflexivity.
  - do 11 (destruct r as [|? r]; try done). injection H as <-.
    split; vm_compute; reflexivity.
Qed.

Lemma rewritten_row_columns_witness :
  dict_get (dict_row HEADER_11_COL
              ["repoA"; "fileB"; "N/A"; "v1.0"; "T1HASH"; "N/A"; "N/A";
               "sha256x"; "imphashY"; "2024-01-01"; "yes"])
    "TLSH Hash" (Some EmptyString) = Some "T1HASH".
Proof.
  destruct (rewritten_row_columns Sample.legacy_row
              ["repoA"; "fileB"; "N/A"; "v1.0"; "T1HASH"; "N/A"; "N/A";
               "sha256x"; "imphashY"; "2024-01-01"; "yes"]) as [Hm _].
  destruct Hm as [Hfp _]; [reflexivity|]. rewrite Hfp. reflexivity.
Defined.

(** ** The loop of the verification pass and the world *)

Section BlankRows.

Variable tlsh_diff : string → string → option Z.
Variables (file_path reference_tlsh : string) (max_distance : Z).
Variable fieldnames : list string.

Local Abbreviation loop :=
  (verify_loop tlsh_diff file_path reference_tlsh max_distance fieldnames).

(** The loop looks at the world only to append to the output. *)
Lemma verify_loop_uniform rows : ∀ i b,
  ∃ r out, ∀ w, loop i rows b w = (r, with_stdout (stdout w ++ out) w).
Proof.
  induction rows as [|r rest IH]; intros i b.
  - exists (Returned b), []. intros w. simpl. by rewrite with_stdout_nil.
  - destruct r as [|c cs]; [apply IH|].
    cbn [verify_loop]. fold (fingerprint fieldnames (c :: cs)).
    destruct (fingerprint fieldnames (c :: cs)) as [s|]; cbn [cell_strip]; unfold_monad.
    + destruct (Str.startswith "T1" (Str.strip s)); cbn [negb]; [|apply IH].
      destruct (tlsh_diff reference_tlsh (Str.strip s)) as [d|]; [|apply IH].
      destruct (d <? max_distance)%Z; [|apply IH].
      destruct (IH (S i) true) as (r & out & Hr).
      eexists r, (_ :: out). intros w. unfold print. rewrite Hr.
      unfold with_stdout. cbn. by rewrite <- app_assoc.
    + eexists _, []. intros w. by rewrite with_stdout_nil.
Qed.

Lemma verify_loop_nonblank rows : ∀ i b w,
  loop i (List.filter (λ r, negb (bool_decide (r = []))) rows) b w = loop i rows b w.
Proof.
  induction rows as [|r rest IH]; intros i b w; [done|].
  destruct r as [|c cs]; [apply IH|].
  cbn [List.filter bool_decide negb]. rewrite bool_decide_eq_false_2 by done.
  cbn [negb verify_loop]. fold (fingerprint fieldnames (c :: cs)).
  destruct (fingerprint fieldnames (c :: cs)) as [s|]; cbn [cell_strip]; unfold_monad;
    [|done].
  destruct (Str.startswith "T1" (Str.strip s)); cbn [negb]; [|apply IH].
  destruct (tlsh_diff reference_tlsh (Str.strip s)) as [d|]; [|apply IH].
  destruct (d <? max_distance)%Z; [|apply IH].
  unfold print. apply IH.
Qed.

End BlankRows.

(** ** More on the verification pass *)

(** Either every non-blank row has a fingerprint cell, or some row lacks
    it. *)
Lemma fingerprint_cells_dec (fieldnames : list string) (data : list row) :
  Forall (λ r, r = [] ∨ is_Some (fingerprint fieldnames r)) data
  ∨ Exists (λ r, r ≠ [] ∧ fingerprint fieldnames r = None) data.
Proof.
  induction data as [|r rest [IH|IH]].
  - left. constructor.
  - destruct (decide (r = [])) as [->|Hne]; [left; constructor; auto|].
    destruct (fingerprint fieldnames r) as [s|] eqn:Hs.
    + left. constructor; [right; rewrite Hs; by eexists | done].
    + right. by constructor.
  - right. by constructor.
Qed.

(** The outcome of verification on a file that the reader rejects
    part-way: not readable, no match, whatever was scanned before. *)
Lemma verify_corrupt tlsh_diff p reference_tlsh max_distance w rows e :
  files w !! p = Some (Corrupt rows e) →
  ∃ w', verify_and_match_hashes tlsh_diff p reference_tlsh max_distance w
        = (Returned (false, false), w')
        ∧ files w' = files w ∧ io_log w' = io_log w ++ [OpenRead p].
Proof.
  intros H.
  unfold verify_and_match_hashes, verify_body, print, try_except. unfold_monad.
  unfold open_csv. cbn [files with_stdout]. rewrite H.
  destruct rows as [|fieldnames data]; [by eexists|].
  destruct (bool_decide ("TLSH Hash" ∈ fieldnames)); cbn [negb]; [|by eexists].
  destruct (verify_loop_uniform tlsh_diff p reference_tlsh max_distance fieldnames
              data 2 false) as (r & out & Hr).
  rewrite Hr. destruct r as [b|e']; by eexists.
Qed.

(** How a call of [verify_and_match_hashes] can end. *)
Lemma verify_cases tlsh_diff p reference_tlsh max_distance w :
  ∃ readable matched w',
    verify_and_match_hashes tlsh_diff p reference_tlsh max_distance w
    = (Returned (readable, matched), w')
    ∧ files w' = files w
    ∧ io_log w' = io_log w ++ [OpenRead p]
    ∧ (matched = true → readable = true).
Proof.
  destruct (files w !! p) as [[[|fieldnames data]|e|rows e]|] eqn:H.
  - destruct (verify_unreadable tlsh_diff p reference_tlsh max_distance w)
      as (w' & Hv & Hf & Hl); [auto|].
    by exists false, false, w'.
  - destruct (decide ("TLSH Hash" ∈ fieldnames)) as [Hcol|Hcol].
    + destruct (fingerprint_cells_dec fieldnames data) as [HF|HE].
      * destruct (verify_scanned tlsh_diff p reference_tlsh max_distance w
                    fieldnames data H Hcol HF) as (w' & Hv & Hf & Hl).
        by eexists true, _, w'.
      * destruct (verify_short_row tlsh_diff p reference_tlsh max_distance w
                    fieldnames data H Hcol HE) as (w' & Hv & Hf & Hl).
        by exists false, false, w'.
    + destruct (verify_unreadable tlsh_diff p reference_tlsh max_distance w)
        as (w' & Hv & Hf & Hl); [do 3 right; by exists fieldnames, data|].
      by exists false, false, w'.
  - destruct (verify_unreadable tlsh_diff p reference_tlsh max_distance w)
      as (w' & Hv & Hf & Hl); [right; left; by exists e|].
    by exists false, false, w'.
  - destruct (verify_corrupt tlsh_diff p reference_tlsh max_distance w rows e H)
      as (w' & Hv & Hf & Hl).
    by exists false, false, w'.
  - destruct (verify_unreadable tlsh_diff p reference_tlsh max_distance w)
      as (w' & Hv & Hf & Hl); [auto|].
    by exists false, false, w'.
Qed.

(** X7.  Verification never writes and never reports a match on a file it
    reports as not readable: whatever the path, the store and the oracle,
    the store after the call is the store before it, no file has been
    opened for writing, and a returned pair (readable, matched) with
    matched = true has readable = true. *)
Theorem verify_never_writes
    (tlsh_diff : string → string → option Z)
    (p reference_tlsh : string) (max_distance : Z) (w : world) :
  files (verify_and_match_hashes tlsh_diff p reference_tlsh max_distance w).2
  = files w
  ∧ (∃ opened,
       io_log (verify_and_match_hashes tlsh_diff p reference_tlsh max_distance w).2
       = io_log w ++ opened
       ∧ ∀ q, OpenWrite q ∉ opened)
  ∧ (∀ readable matched w',
       verify_and_match_hashes tlsh_diff p reference_tlsh max_distance w
       = (Returned (readable, matched), w') →
       matched = true → readable = true).
Proof.
  destruct (verify_cases tlsh_diff p reference_tlsh max_distance w)
    as (readable & matched & w' & Hv & Hf & Hl & Himp).
  rewrite Hv. split; [done|]. split.
  - exists [OpenRead p]. split; [done|].
    intros q Hq. apply list_elem_of_singleton in Hq. discriminate Hq.
  - intros r m w'' Heq. by injection Heq as <- <- _.
Qed.

Lemma verify_never_writes_witness :
  files (verify_and_match_hashes Sample.always_close "a.csv" MALWARE_TEST_HASH 50
           (Sample.store [HEADER_11_COL; Sample.canonical_row])).2
  = <["a.csv" := Table [HEADER_11_COL; Sample.canonical_row]]> ∅.
Proof.
  destruct (verify_never_writes Sample.always_close "a.csv" MALWARE_TEST_HASH 50
              (Sample.store [HEADER_11_COL; Sample.canonical_row])) as [Hf _].
  rewrite Hf. reflexivity.
Defined.

(** X8.  The failures of verification that come before any row is scanned.
    When the path does not exist, cannot be opened for reading, or holds an
    empty file, the function prints the "Deep Test" line and one line that
    begins with "[ERROR] Test failed: Could not read or parse file: ", and
    returns (false, false).  When the header row lacks the TLSH Hash column
    it prints the "Deep Test" line and the "[FAILURE]" line and returns
    (false, false), whatever the rows after the header, even ones the reader
    would reject.  In each case the file is opened once, for reading, and
    the store is as before. *)
Theorem verify_failure_reports
    (tlsh_diff : string → string → option Z)
    (p reference_tlsh : string) (max_distance : Z) (w : world) :
  let reported (line : string) :=
    (Returned (false, false),
     WorldRO (files w)
             (stdout w ++ ["    -> Deep Test: '" +:+ Path.basename p +:+ "'"; line])
             (io_log w ++ [OpenRead p])
             (read_only w)) in
  let run := verify_and_match_hashes tlsh_diff p reference_tlsh max_distance w in
  (files w !! p = None
   ∨ (∃ e, files w !! p = Some (Unreadable e))
   ∨ files w !! p = Some (Table []) →
   ∃ detail,
     run = reported ("       [ERROR] Test failed: Could not read or parse file: "
                     +:+ detail))
  ∧ (∀ fieldnames data,
       files w !! p = Some (Table (fieldnames :: data))
       ∨ (∃ e, files w !! p = Some (Corrupt (fieldnames :: data) e)) →
       "TLSH Hash" ∉ fieldnames →
       run = reported "       [FAILURE] 'TLSH Hash' column not found.").
Proof.
  cbv zeta.
  unfold verify_and_match_hashes, verify_body, print, try_except. unfold_monad.
  unfold open_csv. cbn [files with_stdout with_io_log stdout io_log].
  split.
  - intros [->|[[e ->]| ->]]; eexists;
      unfold with_stdout, with_io_log; cbn; by rewrite <- app_assoc.
  - intros fieldnames data [->|[e ->]] Hcol;
      rewrite (bool_decide_eq_false_2 _ Hcol);
      unfold with_stdout, with_io_log; cbn; by rewrite <- app_assoc.
Qed.

Lemma verify_failure_reports_witness :
  verify_and_match_hashes Sample.always_close "dir/a.csv" MALWARE_TEST_HASH 50
    (World (<["dir/a.csv" := Table [Sample.header7]]> ∅) [] [])
  = (Returned (false, false),
     World (<["dir/a.csv" := Table [Sample.header7]]> ∅)
       ["    -> Deep Test: 'a.csv'";
        "       [FAILURE] 'TLSH Hash' column not found."]
       [OpenRead "dir/a.csv"]).
Proof.
  destruct (verify_failure_reports Sample.always_close "dir/a.csv"
              MALWARE_TEST_HASH 50
              (World (<["dir/a.csv" := Table [Sample.header7]]> ∅) [] []))
    as (_ & Hcol).
  rewrite (Hcol Sample.header7 []); [reflexivity | left; reflexivity |].
  apply (bool_decide_eq_false_1 _). reflexivity.
Defined.

(** X9.  On a file that can be read, whose header names the TLSH Hash
    column and whose non-blank rows all have a cell under it, verification
    returns readable = true, and matched = true exactly when some non-blank
    row has a fingerprint that, once trimmed, starts with "T1" and on which
    the oracle returns a distance strictly below the threshold. *)
Theorem verify_scan_result
    (tlsh_diff : string → string → option Z)
    (p reference_tlsh : string) (max_distance : Z) (w : world)
    (fieldnames : list string) (data : list row) :
  files w !! p = Some (Table (fieldnames :: data)) →
  "TLSH Hash" ∈ fieldnames →
  Forall (λ r, r = [] ∨ is_Some (fingerprint fieldnames r)) data →
  ∃ matched w',
    verify_and_match_hashes tlsh_diff p reference_tlsh max_distance w
    = (Returned (true, matched), w')
    ∧ (matched = true
       ↔ ∃ r s distance,
           r ∈ data ∧ r ≠ []
           ∧ fingerprint fieldnames r = Some s
           ∧ Str.startswith "T1" (Str.strip s) = true
           ∧ tlsh_diff reference_tlsh (Str.strip s) = Some distance
           ∧ (distance < max_distance)%Z).
Proof.
  intros H Hcol HF.
  destruct (verify_scanned tlsh_diff p reference_tlsh max_distance w
              fieldnames data H Hcol HF) as (w' & Hv & _).
  eexists _, w'. split; [exact Hv|].
  rewrite existsb_exists. split.
  - intros (r & Hin%list_elem_of_In & Hm).
    destruct (proj1 (row_matches_iff _ _ _ _ _) Hm)
      as (Hne & s & d & Hs & Hpre & Hdiff & Hd).
    by exists r, s, d.
  - intros (r & s & d & Hin & Hne & Hs & Hpre & Hdiff & Hd).
    exists r. split; [by apply list_elem_of_In|].
    apply row_matches_iff. split; [done|]. by exists s, d.
Qed.

Lemma verify_scan_result_witness :
  ∃ w',
    verify_and_match_hashes Sample.always_close "a.csv" MALWARE_TEST_HASH 50
      (Sample.store [HEADER_11_COL; Sample.canonical_row; []])
    = (Returned (true, true), w').
Proof.
  destruct (verify_scan_result Sample.always_close "a.csv" MALWARE_TEST_HASH 50
              (Sample.store [HEADER_11_COL; Sample.canonical_row; []])
              HEADER_11_COL [Sample.canonical_row; []])
    as (matched & w' & Hv & Hm).
  - reflexivity.
  - apply (bool_decide_eq_true_1 _). reflexivity.
  - constructor; [right; by eexists|]. constructor; [by left | constructor].
  - exists w'. rewrite Hv. do 3 f_equal. apply Hm.
    exists Sample.canonical_row, "T1HASH", 0%Z.
    repeat split; [apply list_elem_of_here | done].
Defined.

(** ** Blank rows *)

(** X10.  Blank rows do not count: verification of a file gives the same
    result and prints the same lines, row numbers included, as verification
    of the same file without its blank data rows. *)
Theorem verify_ignores_blank_rows
    (tlsh_diff : string → string → option Z)
    (p reference_tlsh : string) (max_distance : Z) (w : world)
    (fieldnames : list string) (data : list row) :
  files w !! p = Some (Table (fieldnames :: data)) →
  let without_blanks :=
    with_files
      (<[p := Table (fieldnames
                     :: List.filter (λ r, negb (bool_decide (r = []))) data)]> (files w))
      w in
  (verify_and_match_hashes tlsh_diff p reference_tlsh max_distance w).1
  = (verify_and_match_hashes tlsh_diff p reference_tlsh max_distance without_blanks).1
  ∧ stdout (verify_and_match_hashes tlsh_diff p reference_tlsh max_distance w).2
    = stdout (verify_and_match_hashes tlsh_diff p reference_tlsh max_distance
                without_blanks).2.
Proof.
  intros H. cbv zeta.
  unfold verify_and_match_hashes, verify_body, print, try_except. unfold_monad.
  unfold open_csv. cbn [files with_stdout with_files with_io_log stdout io_log].
  rewrite H, lookup_insert_eq.
  destruct (bool_decide ("TLSH Hash" ∈ fieldnames)); cbn [negb]; [|done].
  rewrite verify_loop_nonblank.
  destruct (verify_loop_uniform tlsh_diff p reference_tlsh max_distance fieldnames
              data 2 false) as (r & out & Hr).
  rewrite !Hr. destruct r as [[]|e]; done.
Qed.

Lemma verify_ignores_blank_rows_witness :
  stdout (verify_and_match_hashes Sample.always_close "a.csv" MALWARE_TEST_HASH 50
            (Sample.store [HEADER_11_COL; []; []; Sample.canonical_row])).2
  = stdout (verify_and_match_hashes Sample.always_close "a.csv" MALWARE_TEST_HASH 50
              (Sample.store [HEADER_11_COL; Sample.canonical_row])).2.
Proof.
  destruct (verify_ignores_blank_rows Sample.always_close "a.csv" MALWARE_TEST_HASH 50
              (Sample.store [HEADER_11_COL; []; []; Sample.canonical_row])
              HEADER_11_COL [[]; []; Sample.canonical_row]) as [_ Hout];
    [reflexivity|].
  rewrite Hout. reflexivity.
Defined.

(** ** Verifying a file that was rewritten *)

(** X11.  A file on which a normaliser, in either mode, has just reported
    a change passes the readability test: verification returns
    readable = true, whatever the oracle, the reference and the
    threshold. *)
Theorem rewritten_file_is_readable
    (tlsh_diff : string → string → option Z) (norm : string → M outcome)
    (p reference_tlsh : string) (max_distance : Z) (w w1 : world) (o : outcome) :
  norm = normalize_malware_csv ∨ norm = normalize_attack_tool_csv →
  norm p w = (Returned o, w1) →
  outcome_changed o = true →
  ∃ matched w2,
    verify_and_match_hashes tlsh_diff p reference_tlsh max_distance w1
    = (Returned (true, matched), w2).
Proof.
  intros Hn Hrun Hch.
  destruct (rewritten_table norm p w o w1 Hn Hrun Hch) as (rows & Hfile & HF).
  destruct (verify_scanned tlsh_diff p reference_tlsh max_distance w1
              HEADER_11_COL rows Hfile) as (w2 & Hv & _).
  - apply (bool_decide_eq_true_1 _). reflexivity.
  - eapply Forall_impl; [exact HF|]. intros r Hr. right.
    apply fingerprint_wide_row. rewrite Hr. reflexivity.
  - by eexists _, w2.
Qed.

Lemma rewritten_file_is_readable_witness :
  ∃ matched w2,
    verify_and_match_hashes Sample.always_close "a.csv" MALWARE_TEST_HASH 50
      (normalize_malware_csv "a.csv"
         (Sample.store [Sample.header8; Sample.legacy_row; ["short"]])).2
    = (Returned (true, matched), w2).
Proof.
  apply (rewritten_file_is_readable Sample.always_close normalize_malware_csv
           "a.csv" MALWARE_TEST_HASH 50
           (Sample.store [Sample.header8; Sample.legacy_row; ["short"]]) _
           (true, SUCCESS, "File was successfully Updated."));
    [by left | vm_compute; reflexivity | reflexivity].
Defined.

(** ** The loop of main *)

Lemma print_run line w :
  print line w = (Returned tt, with_stdout (stdout w ++ [line]) w).
Proof. reflexivity. Qed.

Section MainLoop.

Variable tlsh_diff : string → string → option Z.
Variable a : args.
Variable norm : string → M outcome.
Variable reference_tlsh : string.

Hypothesis norm_returns : ∀ p w,
  ∃ o w', norm p w = (Returned o, w') ∧ ∀ q, q ≠ p → files w' !! q = files w !! q.

(** The loop returns; its counters grow as the report expects; and it
    leaves alone every path that is not in its list. *)
Lemma main_loop_run l : ∀ c w,
  ∃ c' w',
    main_loop tlsh_diff a norm reference_tlsh l c w = (Returned c', w')
    ∧ (changed_count c ≤ changed_count c')%nat
    ∧ (skipped_count c ≤ skipped_count c')%nat
    ∧ (changed_count c' + skipped_count c'
       ≤ changed_count c + skipped_count c + length l)%nat
    ∧ (if test a then
         tests_passed c' + tests_failed c'
         = tests_passed c + tests_failed c + length l
         ∧ ∃ found, files_with_matches c' = files_with_matches c ++ found
                    ∧ (length found + tests_passed c ≤ tests_passed c')%nat
                    ∧ sublist found l
       else
         tests_passed c' = tests_passed c
         ∧ tests_failed c' = tests_failed c
         ∧ files_with_matches c' = files_with_matches c)
    ∧ (∀ q, q ∉ l → files w' !! q = files w !! q).
Proof.
  induction l as [|p rest IH]; intros c w.
  - exists c, w. split; [done|]. repeat split; try lia.
    destruct (test a); [|done]. split; [simpl; lia|].
    exists []. rewrite app_nil_r. repeat split; [simpl; lia | constructor].
  - cbn [main_loop].
    erewrite bind_returned by apply print_run. cbn beta.
    destruct (norm_returns p (with_stdout (stdout w ++ ["  -> Processing: " +:+ p]) w))
      as ([[ch st] msg] & w1 & Hn & Hframe1).
    erewrite bind_returned by exact Hn. cbn beta iota.
    erewrite bind_returned by apply print_run.
    set (c1 := if ch then _ else _).
    assert ((changed_count c ≤ changed_count c1)%nat
            ∧ (skipped_count c ≤ skipped_count c1)%nat
            ∧ (changed_count c1 + skipped_count c1
               ≤ changed_count c + skipped_count c + 1)%nat
            ∧ tests_passed c1 = tests_passed c
            ∧ tests_failed c1 = tests_failed c
            ∧ files_with_matches c1 = files_with_matches c)
      as (Hch1 & Hsk1 & Hsum1 & Hp1 & Hf1 & Hm1).
    { subst c1. destruct ch, (bool_decide (st = SKIPPED)); simpl; repeat split; lia. }
    clearbody c1. cbv zeta.
    set (w1' := with_stdout _ w1).
    assert (∀ q, q ≠ p → files w1' !! q = files w !! q) as Hframe1'.
    { intros q Hq. subst w1'. cbn [files with_stdout]. by rewrite (Hframe1 q Hq). }
    clearbody w1'. clear Hn Hframe1 w1.
    assert (∀ q, q ∉ p :: rest → q ≠ p ∧ q ∉ rest) as Hnotin.
    { intros q Hq. split; [intros -> | intros Hin]; apply Hq; by constructor. }
    destruct (test a) eqn:Ht.
    + destruct (verify_cases tlsh_diff p reference_tlsh (max_distance a) w1')
        as (readable & matched & w2 & Hv & Hfiles2 & _ & Himp).
      erewrite bind_returned by exact Hv. cbn beta iota.
      set (c2 := if readable then _ else _).
      set (c3 := if matched then _ else _).
      destruct (IH c3 w2)
        as (c' & w' & Hrun & Hch & Hsk & Hsum & (Htests & found & Hfound & Hlen & Hsub) & Hfr).
      exists c', w'. split; [exact Hrun|].
      assert (changed_count c3 = changed_count c1
              ∧ skipped_count c3 = skipped_count c1
              ∧ tests_passed c3 + tests_failed c3
                = tests_passed c1 + tests_failed c1 + 1
              ∧ tests_passed c3 = tests_passed c1 + (if readable then 1 else 0)
              ∧ files_with_matches c3
                = files_with_matches c1 ++ (if matched then [p] else []))
        as (Hch3 & Hsk3 & Hsum3 & Hp3 & Hm3).
      { subst c3 c2. destruct readable, matched; simpl; rewrite ?app_nil_r;
          repeat split; lia. }
      clearbody c3. clear c2.
      split; [lia|]. split; [lia|]. split; [simpl; lia|]. split.
      * split; [simpl; lia|].
        exists ((if matched then [p] else []) ++ found).
        rewrite Hfound, Hm3, Hm1, <- app_assoc. split; [done|].
        destruct matched.
        -- rewrite (Himp eq_refl) in Hp3. split; [simpl; lia|].
           by apply sublist_skip.
        -- split; [simpl; lia | by apply sublist_cons].
      * intros q [Hq Hrest]%Hnotin.
        by rewrite (Hfr q Hrest), Hfiles2, (Hframe1' q Hq).
    + destruct (IH c1 w1')
        as (c' & w' & Hrun & Hch & Hsk & Hsum & (Hp & Hf & Hm) & Hfr).
      exists c', w'. split; [exact Hrun|].
      split; [lia|]. split; [lia|]. split; [simpl; lia|]. split.
      * by rewrite Hp, Hf, Hm.
      * intros q [Hq Hrest]%Hnotin. by rewrite (Hfr q Hrest), (Hframe1' q Hq).
Qed.

End MainLoop.

(** ** main *)

Lemma normalizer_returns (attack : bool) p w :
  ∃ o w',
    (if attack then normalize_attack_tool_csv else normalize_malware_csv) p w
    = (Returned o, w')
    ∧ ∀ q, q ≠ p → files w' !! q = files w !! q.
Proof.
  destruct attack.
  - destruct (run_of_effects _ p w _ (normalize_attack_tool_run p w))
      as (o & w' & Hr & _ & _ & _ & _ & Hfr). by exists o, w'.
  - destruct (run_of_effects _ p w _ (normalize_malware_run p w))
      as (o & w' & Hr & _ & _ & _ & _ & Hfr). by exists o, w'.
Qed.

Lemma with_stdout_app w out1 out2 :
  with_stdout (stdout (with_stdout (stdout w ++ out1) w) ++ out2)
    (with_stdout (stdout w ++ out1) w)
  = with_stdout (stdout w ++ (out1 ++ out2)) w.
Proof. unfold with_stdout. cbn. by rewrite app_assoc. Qed.

Lemma only_prints_print line : only_prints (print line).
Proof. intros w. by exists tt, [line]. Qed.

Lemma only_prints_ret {A : Type} (x : A) : only_prints (mret x).
Proof. intros w. exists x, []. unfold_monad. by rewrite with_stdout_nil. Qed.

Lemma only_prints_bind {A B : Type} (m : M A) (k : A → M B) :
  only_prints m → (∀ x, only_prints (k x)) → only_prints (m ≫= k).
Proof.
  intros Hm Hk w. destruct (Hm w) as (x & out1 & H1).
  destruct (Hk x (with_stdout (stdout w ++ out1) w)) as (y & out2 & H2).
  exists y, (out1 ++ out2). rewrite (bind_returned _ _ _ _ _ H1), H2.
  by rewrite with_stdout_app.
Qed.

Lemma only_prints_for_each {A : Type} (l : list A) (f : A → M unit) :
  (∀ x, only_prints (f x)) → only_prints (for_each l f).
Proof.
  intros Hf. induction l as [|x rest IH]; cbn [for_each].
  - apply only_prints_ret.
  - apply only_prints_bind; [apply Hf | by intros _].
Qed.

(** Closes a goal [only_prints m] for a straight-line [m]. *)
Ltac solve_only_prints :=
  repeat first
    [ apply only_prints_print
    | apply only_prints_ret
    | apply only_prints_for_each; intros ?
    | apply only_prints_bind; [|intros ?] ].

(** The summary only prints. *)
Lemma print_summary_only_prints a total c : only_prints (print_summary a total c).
Proof.
  unfold print_summary. solve_only_prints.
  destruct (test a); solve_only_prints.
  destruct (files_with_matches c); solve_only_prints.
Qed.

Section Main.

Variable tlsh_diff : string → string → option Z.
Variable TLSH_AVAILABLE : bool.
Variable os_walk : gmap string entry → string → list (string * list string).

(** The files [main] goes through, as it finds them in world [w]. *)
Local Abbreviation listed a w :=
  (match file a with
   | Some (String c f) =>
       if bool_decide (is_Some (files w !! String c f)) then [String c f] else []
   | _ => csv_files_of (os_walk (files w) (directory a))
   end).

Local Abbreviation normalizer a :=
  (if normalize_attack_tools a then normalize_attack_tool_csv
   else normalize_malware_csv).

(** [main] past its precondition: the banner, the list of files, and then
    either the "No CSV files" line or the loop and the summary. *)
Lemma main_run a w :
  test a && negb TLSH_AVAILABLE = false →
  let banner :=
    Str.nl +:+ (if normalize_attack_tools a
                then "--- Running in Attack Tool Normalization Mode ---"
                else "--- Running in Malware Normalization Mode (Default) ---") in
  let searching :=
    match file a with
    | Some (String _ _) => []
    | _ => ["Searching for CSV files in '" +:+ directory a +:+ "'..."]
    end in
  let w1 := with_stdout (stdout w ++ banner :: searching) w in
  main tlsh_diff TLSH_AVAILABLE os_walk a w
  = match listed a w with
    | [] => print "No CSV files found to process." w1
    | _ =>
        (print (Str.nl +:+ "Found " +:+ pretty (length (listed a w))
                +:+ " CSV files. Starting process..." +:+ Str.nl);;
         c ← main_loop tlsh_diff a (normalizer a)
               (if normalize_attack_tools a then ATTACK_TOOL_TEST_HASH
                else MALWARE_TEST_HASH)
               (listed a w) (Counters 0 0 0 0 []);
         print_summary a (length (listed a w)) c) w1
    end.
Proof.
  intros Hpre. cbv zeta. unfold main. rewrite Hpre.
  destruct (normalize_attack_tools a);
    (erewrite bind_returned by reflexivity); cbn beta iota;
    destruct (file a) as [[|ch f]|];
    (erewrite bind_returned by reflexivity);
    cbn [files with_stdout stdout];
    try (unfold with_stdout; cbn [files stdout io_log]; rewrite <- app_assoc);
    try destruct (bool_decide _);
    try destruct (csv_files_of _);
    reflexivity.
Qed.

(** [main] returns, and leaves alone every path it does not go through. *)
Lemma main_returns a w :
  ∃ w', main tlsh_diff TLSH_AVAILABLE os_walk a w = (Returned tt, w')
        ∧ ∀ q, q ∉ listed a w → files w' !! q = files w !! q.
Proof.
  destruct (test a && negb TLSH_AVAILABLE) eqn:Hpre.
  - unfold main. rewrite Hpre. by eexists.
  - rewrite (main_run a w Hpre). cbv zeta.
    set (w1 := with_stdout _ w).
    destruct (listed a w) as [|p rest] eqn:Hl; [by eexists|].
    erewrite bind_returned by apply print_run.
    set (w2 := with_stdout _ w1).
    destruct (main_loop_run tlsh_diff a (normalizer a)
                (if normalize_attack_tools a then ATTACK_TOOL_TEST_HASH
                 else MALWARE_TEST_HASH)
                (normalizer_returns (normalize_attack_tools a))
                (p :: rest) (Counters 0 0 0 0 []) w2)
      as (c' & w3 & Hloop & _ & _ & _ & _ & Hframe).
    erewrite bind_returned by exact Hloop.
    destruct (print_summary_only_prints a (length (p :: rest)) c' w3)
      as ([] & out & Hsum).
    rewrite Hsum. eexists. split; [done|].
    intros q Hq. cbn [files with_stdout]. by rewrite (Hframe q Hq).
Qed.

(** X15.  A run of [main] changes no path other than the files it goes
    through: the file given with [-f], or else the CSV files found under
    the directory. *)
Theorem main_touches_only_listed_files (a : args) (w : world) (q : string) :
  q ∉ match file a with
      | Some (String c f) =>
          if bool_decide (is_Some (files w !! String c f)) then [String c f] else []
      | _ => csv_files_of (os_walk (files w) (directory a))
      end →
  files (main tlsh_diff TLSH_AVAILABLE os_walk a w).2 !! q = files w !! q.
Proof.
  intros Hq. destruct (main_returns a w) as (w' & Hmain & Hframe).
  rewrite Hmain. by apply Hframe.
Qed.

(** X16.  When there is nothing to process - the path given with [-f] does
    not exist, or no CSV file is found under the directory - [main] prints
    its banner, the "Searching" line in directory mode, and "No CSV files
    found to process."; it opens no file and prints no summary. *)
Theorem main_nothing_to_process (a : args) (w : world) :
  test a && negb TLSH_AVAILABLE = false →
  match file a with
  | Some (String c f) => files w !! String c f = None
  | _ => csv_files_of (os_walk (files w) (directory a)) = []
  end →
  main tlsh_diff TLSH_AVAILABLE os_walk a w
  = (Returned tt,
     with_stdout
       (stdout w
        ++ (Str.nl +:+ (if normalize_attack_tools a
                        then "--- Running in Attack Tool Normalization Mode ---"
                        else "--- Running in Malware Normalization Mode (Default) ---"))
           :: match file a with
              | Some (String _ _) => []
              | _ => ["Searching for CSV files in '" +:+ directory a +:+ "'..."]
              end
        ++ ["No CSV files found to process."]) w).
Proof.
  intros Hpre Hnone. rewrite (main_run a w Hpre). cbv zeta.
  assert (listed a w = []) as ->.
  { destruct (file a) as [[|c f]|]; try done.
    rewrite Hnone. by rewrite bool_decide_eq_false_2 by (by intros [? ?]). }
  rewrite print_run. unfold with_stdout. cbn [files stdout io_log].
  by rewrite <- app_assoc.
Qed.

End Main.

(** X13.  The counters of the loop of [main], started from zero on a list
    of [n] files: whenever the loop returns, the files counted as changed
    and as skipped are at most [n]; without [--test] no test is counted and
    no match is listed; with [--test] the tests passed and failed add up to
    [n], and the files listed with matches are some of the processed files,
    in order, no more of them than tests passed. *)
Theorem main_loop_counters
    (tlsh_diff : string → string → option Z) (a : args) (attack : bool)
    (reference_tlsh : string) (files_to_process : list string) (w w' : world)
    (c : counters) :
  main_loop tlsh_diff a
    (if attack then normalize_attack_tool_csv else normalize_malware_csv)
    reference_tlsh files_to_process (Counters 0 0 0 0 []) w
  = (Returned c, w') →
  (changed_count c + skipped_count c ≤ length files_to_process)%nat
  ∧ (if test a then
       tests_passed c + tests_failed c = length files_to_process
       ∧ (length (files_with_matches c) ≤ tests_passed c)%nat
       ∧ sublist (files_with_matches c) files_to_process
     else
       tests_passed c = 0 ∧ tests_failed c = 0 ∧ files_with_matches c = []).
Proof.
  intros Hrun.
  destruct (main_loop_run tlsh_diff a _ reference_tlsh (normalizer_returns attack)
              files_to_process (Counters 0 0 0 0 []) w)
    as (c0 & w0 & Hloop & _ & _ & Hsum & Htests & _).
  rewrite Hrun in Hloop. injection Hloop as <- <-.
  split; [simpl in Hsum; lia|].
  destruct (test a).
  - destruct Htests as (Hpf & found & Hfound & Hlen & Hsub).
    simpl in Hpf, Hfound, Hlen. subst found.
    split; [lia|]. split; [lia | done].
  - done.
Qed.

Lemma main_loop_counters_witness :
  tests_passed (Counters 1 0 1 1 ["a.csv"]) + tests_failed (Counters 1 0 1 1 ["a.csv"])
  = 2
  ∧ sublist ["a.csv"] ["a.csv"; "missing.csv"].
Proof.
  destruct (main_loop_counters Sample.always_close
              (Args false None "." true 50) false MALWARE_TEST_HASH
              ["a.csv"; "missing.csv"]
              (Sample.store [Sample.header8; Sample.legacy_row])
              (main_loop Sample.always_close (Args false None "." true 50)
                 normalize_malware_csv MALWARE_TEST_HASH ["a.csv"; "missing.csv"]
                 (Counters 0 0 0 0 [])
                 (Sample.store [Sample.header8; Sample.legacy_row])).2
              (Counters 1 0 1 1 ["a.csv"]))
    as (_ & Htests & _ & Hsub); [vm_compute; reflexivity|].
  split; [exact Htests | exact Hsub].
Defined.

Lemma main_nothing_to_process_witness :
  main Sample.always_close true Sample.no_walk
    (Args false (Some "missing.csv") "." true 50) (Sample.store [Sample.header8])
  = (Returned tt,
     World (<["a.csv" := Table [Sample.header8]]> ∅)
       [Str.nl +:+ "--- Running in Malware Normalization Mode (Default) ---";
        "No CSV files found to process."]
       []).
Proof.
  rewrite (main_nothing_to_process Sample.always_close true Sample.no_walk
             (Args false (Some "missing.csv") "." true 50)
             (Sample.store [Sample.header8]));
    reflexivity.
Defined.

Lemma main_touches_only_listed_files_witness :
  files (main Sample.always_close true Sample.no_walk
           (Args false (Some "a.csv") "." false 50)
           (World (<["a.csv" := Table [Sample.header8; Sample.legacy_row]]>
                     (<["b.csv" := Table [Sample.header8; Sample.legacy_row]]> ∅))
                  [] [])).2
    !! "b.csv"
  = Some (Table [Sample.header8; Sample.legacy_row]).
Proof.
  rewrite (main_touches_only_listed_files Sample.always_close true Sample.no_walk
             (Args false (Some "a.csv") "." false 50)); [reflexivity|].
  apply (bool_decide_eq_false_1 _). reflexivity.
Defined.

(** ** Nothing is lost from the rows that are kept *)

Lemma legacy8_cells_back (data_rows : list row) :
  (λ r, delete 2 (delete 5 (delete 6 r))) <$> omap canonical_of_legacy8 data_rows
  = well_formed 8 data_rows.
Proof.
  unfold well_formed. induction data_rows as [|r rest IH]; [done|].
  cbn [omap list_omap List.filter].
  destruct (length r =? 8)%nat eqn:Hlen.
  - apply Nat.eqb_eq in Hlen.
    do 9 (destruct r as [|? r]; try discriminate Hlen).
    cbn [canonical_of_legacy8]. rewrite fmap_cons, IH. reflexivity.
  - apply Nat.eqb_neq in Hlen. by rewrite (canonical_of_legacy8_None r Hlen).
Qed.

Lemma attack10_cells_back (data_rows : list row) :
  delete 6 <$> omap canonical_of_attack10 data_rows
  = alter (Str.replace "," ";") 2 <$> well_formed 10 data_rows.
Proof.
  unfold well_formed. induction data_rows as [|r rest IH]; [done|].
  cbn [omap list_omap List.filter].
  destruct (length r =? 10)%nat eqn:Hlen.
  - apply Nat.eqb_eq in Hlen.
    do 11 (destruct r as [|? r]; try discriminate Hlen).
    cbn [canonical_of_attack10]. rewrite !fmap_cons, IH. reflexivity.
  - apply Nat.eqb_neq in Hlen. by rewrite (canonical_of_attack10_None r Hlen).
Qed.

(** X17.  A rewrite in malware mode loses nothing of the rows it keeps:
    taking the cells at positions 2, 5 and 6 out of every data row of the
    rewritten file gives back the 8-cell data rows of the file as it was, in
    the same order. *)
Theorem malware_rewrite_keeps_cells (p : string) (w w1 : world) (o : outcome)
    (first : row) (data_rows : list row) :
  files w !! p = Some (Table (first :: data_rows)) →
  normalize_malware_csv p w = (Returned o, w1) →
  outcome_changed o = true →
  ∃ rows,
    files w1 !! p = Some (Table (HEADER_11_COL :: rows))
    ∧ (λ r, delete 2 (delete 5 (delete 6 r))) <$> rows = well_formed 8 data_rows.
Proof.
  intros H Hrun Hch. pose proof (normalize_malware_run p w) as Hr. rewrite Hrun in Hr.
  destruct (run_of_rewritten _ _ _ _ _ Hr Hch) as (first' & data' & H' & ->).
  rewrite H in H'. injection H' as <- <-.
  eexists. split; [apply lookup_insert_eq | apply legacy8_cells_back].
Qed.

Lemma malware_rewrite_keeps_cells_witness :
  ∃ rows,
    files (normalize_malware_csv "a.csv"
             (Sample.store [Sample.header8; ["short"]; Sample.legacy_row])).2
      !! "a.csv" = Some (Table (HEADER_11_COL :: rows))
    ∧ (λ r, delete 2 (delete 5 (delete 6 r))) <$> rows = [Sample.legacy_row].
Proof.
  apply (malware_rewrite_keeps_cells "a.csv"
           (Sample.store [Sample.header8; ["short"]; Sample.legacy_row]) _
           (true, SUCCESS, "File was successfully Updated.")
           Sample.header8 [["short"]; Sample.legacy_row]);
    [reflexivity | vm_compute; reflexivity | reflexivity].
Defined.

(** X18.  A rewrite in attack-tool mode loses nothing of the rows it keeps
    but the commas of the File Type cell: taking the cell at position 6 out
    of every data row of the rewritten file gives back the 10-cell data rows
    of the file as it was, in the same order, with the commas of cell 2
    turned into semicolons. *)
Theorem attack_tool_rewrite_keeps_cells (p : string) (w w1 : world) (o : outcome)
    (first : row) (data_rows : list row) :
  files w !! p = Some (Table (first :: data_rows)) →
  normalize_attack_tool_csv p w = (Returned o, w1) →
  outcome_changed o = true →
  ∃ rows,
    files w1 !! p = Some (Table (HEADER_11_COL :: rows))
    ∧ delete 6 <$> rows
      = alter (Str.replace "," ";") 2 <$> well_formed 10 data_rows.
Proof.
  intros H Hrun Hch. pose proof (normalize_attack_tool_run p w) as Hr.
  rewrite Hrun in Hr.
  destruct (run_of_rewritten _ _ _ _ _ Hr Hch) as (first' & data' & H' & ->).
  rewrite H in H'. injection H' as <- <-.
  eexists. split; [apply lookup_insert_eq | apply attack10_cells_back].
Qed.

Lemma attack_tool_rewrite_keeps_cells_witness :
  ∃ rows,
    files (normalize_attack_tool_csv "a.csv"
             (Sample.store [Sample.header10; Sample.attack_row; ["short"]])).2
      !! "a.csv" = Some (Table (HEADER_11_COL :: rows))
    ∧ delete 6 <$> rows
      = [["repoA"; "tool"; "exe;dll"; "v2"; "T1HASH"; "3"; "sha256x"; "imphashY";
          "2024-01-01"; "yes"]].
Proof.
  apply (attack_tool_rewrite_keeps_cells "a.csv"
           (Sample.store [Sample.header10; Sample.attack_row; ["short"]]) _
           (true, SUCCESS, "File was successfully fixed.")
           Sample.header10 [Sample.attack_row; ["short"]]);
    [reflexivity | vm_compute; reflexivity | reflexivity].
Defined.
